(** * Passport declaration service: a shallow embedding and its properties

    The repository holds two request handlers for the same form:
    - [src/app/api/passport.py] ([create_passport]): the structured-layout
      variant, which composes a ReportLab document and stores it under
      [pdf_output];
    - [src/main.py] ([submit_passport_declaration], [download_pdf],
      [view_pdf], [generate_pdf_html]): the template variant, which
      interpolates an HTML page, hands it to xhtml2pdf and stores the result
      under [pdf_files].

    Python values are modelled as follows.  A [str] is a [string] whose
    characters are 8-bit codes (a code above 127 stands for a non-ASCII
    character); [bytes] is a [list N] of values below 256; a parsed JSON
    value is a [JValue]; a raised exception is the left side of a [result].
    The file system is a finite map from path strings to nodes.  The
    libraries the handlers call (pydantic, ReportLab, xhtml2pdf, the
    operating system) are collected in the record [Env]: every theorem
    holds for each choice of their behaviour. *)

From Stdlib Require Import ZArith NArith List String Ascii Bool Lia.
From stdpp Require Import base option gmap strings list.
Import ListNotations.

(** ** Python built-ins on strings *)

Module Py.

(** A computation that either raises (left) or returns (right). *)
Inductive result (E A : Type) : Type :=
| Raise (e : E)
| Return (a : A).
Arguments Raise {E A} e.
Arguments Return {E A} a.

Definition rbind {E A B} (r : result E A) (k : A -> result E B) : result E B :=
  match r with
  | Raise e => Raise e
  | Return a => k a
  end.

Notation "'try!' x ':=' r 'in' k" := (rbind r (fun x => k))
  (at level 10, x binder, r at level 100, k at level 200).

Definition chr (n : N) : ascii := ascii_of_N n.
Definition ord (c : ascii) : N := N_of_ascii c.

Definition is_digit (c : ascii) : bool :=
  (48 <=? ord c)%N && (ord c <=? 57)%N.
Definition digit_val (c : ascii) : N := (ord c - 48)%N.
Definition digit_chr (d : N) : ascii := chr (48 + d)%N.

Definition nl : string := String (chr 10) EmptyString.
Definition dq : string := String (chr 34) EmptyString.

(** [str.join] of single characters and [list(s)]. *)
Fixpoint chars (s : string) : list ascii :=
  match s with
  | EmptyString => []
  | String c r => c :: chars r
  end.

Fixpoint of_chars (l : list ascii) : string :=
  match l with
  | [] => EmptyString
  | c :: r => String c (of_chars r)
  end.

(** [s[:n]]: the first [n] characters, or all of [s] when it is shorter. *)
Fixpoint take_prefix (n : nat) (s : string) : string :=
  match n, s with
  | S n', String c r => String c (take_prefix n' r)
  | _, _ => EmptyString
  end.

(** [c in s]. *)
Fixpoint contains (c : ascii) (s : string) : bool :=
  match s with
  | EmptyString => false
  | String a r => Ascii.eqb a c || contains c r
  end.

(** [s.split(sep)] for a one-character separator: the pieces between the
    separators, in order; always at least one piece. *)
Fixpoint split_go (sep : ascii) (s : string) (cur : list ascii) : list string :=
  match s with
  | EmptyString => [of_chars (rev cur)]
  | String c r =>
      if Ascii.eqb c sep
      then of_chars (rev cur) :: split_go sep r []
      else split_go sep r (c :: cur)
  end.

Definition split (sep : ascii) (s : string) : list string := split_go sep s [].

(** The exceptions the handlers can meet.  The payload is what [str(e)]
    is computed from. *)
Inductive Exn : Type :=
| IndexError                          (* list index out of range *)
| ValueError (msg : string)
| TypeError (msg : string)
| BinasciiError (msg : string)
| JSONDecodeError
| OSError (path : string)
| ValidationError (model : string) (errors : list (string * string))
| HTTPException (status : nat) (detail : string)
| LibraryError (msg : string).        (* raised inside a PDF engine *)

(** [l[i]] on a list. *)
Definition index {A} (l : list A) (i : nat) : result Exn A :=
  match l !! i with
  | Some x => Return x
  | None => Raise IndexError
  end.

(** *** [datetime]: the parts of [datetime.strptime] and
    [datetime.strftime] that the handlers use *)

Local Open Scope N_scope.

Record datetime : Type := mkDatetime {
  year : N; month : N; day : N;
  hour : N; minute : N; second : N; microsecond : N
}.

Definition is_leap (y : N) : bool :=
  (y mod 4 =? 0) && (negb (y mod 100 =? 0) || (y mod 400 =? 0)).

Definition days_in_month (y m : N) : N :=
  match m with
  | 1 | 3 | 5 | 7 | 8 | 10 | 12 => 31
  | 4 | 6 | 9 | 11 => 30
  | 2 => if is_leap y then 29 else 28
  | _ => 0
  end.

(** The check made by the [date] constructor ([MINYEAR] is 1,
    [MAXYEAR] is 9999). *)
Definition valid_date (y m d : N) : bool :=
  (1 <=? y) && (y <=? 9999) && (1 <=? m) && (m <=? 12) &&
  (1 <=? d) && (d <=? days_in_month y m).

Definition valid_time (h mi s us : N) : bool :=
  (h <? 24) && (mi <? 60) && (s <? 60) && (us <? 1000000).

Definition valid_datetime (t : datetime) : bool :=
  valid_date (year t) (month t) (day t) &&
  valid_time (hour t) (minute t) (second t) (microsecond t).

(** Month names of the C locale ([%B]). *)
Definition month_name (m : N) : string :=
  match m with
  | 1 => "January" | 2 => "February" | 3 => "March" | 4 => "April"
  | 5 => "May" | 6 => "June" | 7 => "July" | 8 => "August"
  | 9 => "September" | 10 => "October" | 11 => "November"
  | 12 => "December"
  | _ => ""
  end.

Definition pad2 (n : N) : string :=
  String (digit_chr (n / 10 mod 10)) (String (digit_chr (n mod 10)) "").

Definition pad4 (n : N) : string :=
  String (digit_chr (n / 1000 mod 10))
    (String (digit_chr (n / 100 mod 10)) (pad2 n)).

(** Decimal digits without padding, for a number below 10000. *)
Definition dec (n : N) : string :=
  if n <? 10 then String (digit_chr n) ""
  else if n <? 100 then pad2 n
  else if n <? 1000 then String (digit_chr (n / 100 mod 10)) (pad2 n)
  else pad4 n.

(** [%Y] depends on the C library for years below 1000: four digits with
    leading zeros ([pad_year = true]) or the bare number (glibc). *)
Definition directive_out (pad_year : bool) (d : ascii) (t : datetime) : string :=
  if Ascii.eqb d "Y" then (if pad_year then pad4 (year t) else dec (year t))
  else if Ascii.eqb d "m" then pad2 (month t)
  else if Ascii.eqb d "d" then pad2 (day t)
  else if Ascii.eqb d "H" then pad2 (hour t)
  else if Ascii.eqb d "M" then pad2 (minute t)
  else if Ascii.eqb d "S" then pad2 (second t)
  else if Ascii.eqb d "B" then month_name (month t)
  else if Ascii.eqb d "%" then "%"
  else String "%" (String d "").

(** [t.strftime(fmt)]. *)
Fixpoint strftime (pad_year : bool) (fmt : string) (t : datetime) : string :=
  match fmt with
  | EmptyString => EmptyString
  | String c r =>
      if Ascii.eqb c "%" then
        match r with
        | String d r' => directive_out pad_year d t +:+ strftime pad_year r' t
        | EmptyString => "%"
        end
      else String c (strftime pad_year r t)
  end.

(** [strptime] turns the format into a regular expression and matches it
    against the start of the text (the formats here hold no white space,
    which it would turn into [\\s+]).  A directive is an ordered
    alternation; [alts] lists what each alternative consumes, in the order
    in which the backtracking matcher tries them. *)
Definition in_range (lo hi c : ascii) : bool :=
  (ord lo <=? ord c) && (ord c <=? ord hi).

Definition one (p : ascii -> bool) (s : string) : list (N * string) :=
  match s with
  | String a r => if p a then [(digit_val a, r)] else []
  | _ => []
  end.

Definition two (p q : ascii -> bool) (s : string) : list (N * string) :=
  match s with
  | String a (String b r) =>
      if p a && q b then [(10 * digit_val a + digit_val b, r)] else []
  | _ => []
  end.

Definition four (s : string) : list (N * string) :=
  match s with
  | String a (String b (String c (String d r))) =>
      if is_digit a && is_digit b && is_digit c && is_digit d
      then [(1000 * digit_val a + 100 * digit_val b
             + 10 * digit_val c + digit_val d, r)]
      else []
  | _ => []
  end.

Definition skip (p : ascii -> bool) (s : string) : list string :=
  match s with
  | String a r => if p a then [r] else []
  | _ => []
  end.

(** [%Y] is [\d\d\d\d]; [%m] is [1[0-2]|0[1-9]|[1-9]]; [%d] is
    [3[01]|[12]\d|0[1-9]|[1-9]| [1-9]]. *)
Definition alts (d : ascii) (s : string) : option (list (N * string)) :=
  if Ascii.eqb d "Y" then Some (four s)
  else if Ascii.eqb d "m" then
    Some (two (Ascii.eqb "1") (in_range "0" "2") s
          ++ two (Ascii.eqb "0") (in_range "1" "9") s
          ++ one (in_range "1" "9") s)
  else if Ascii.eqb d "d" then
    Some (two (Ascii.eqb "3") (in_range "0" "1") s
          ++ two (in_range "1" "2") is_digit s
          ++ two (Ascii.eqb "0") (in_range "1" "9") s
          ++ one (in_range "1" "9") s
          ++ flat_map (one (in_range "1" "9")) (skip (Ascii.eqb " ") s))
  else None.

Definition store (d : ascii) (v : N) (t : datetime) : datetime :=
  if Ascii.eqb d "Y" then
    mkDatetime v (month t) (day t) (hour t) (minute t) (second t) (microsecond t)
  else if Ascii.eqb d "m" then
    mkDatetime (year t) v (day t) (hour t) (minute t) (second t) (microsecond t)
  else
    mkDatetime (year t) (month t) v (hour t) (minute t) (second t) (microsecond t).

(** The compiled pattern ignores case on literal text. *)
Definition lower (c : ascii) : ascii :=
  if in_range "A" "Z" c then chr (ord c + 32) else c.

(** All the ways the format matches a prefix of the text, first match
    first, each with the fields read and the text left over.  [None]: the
    format holds a directive that does not exist. *)
Fixpoint match_format (fmt s : string) (acc : datetime)
  : option (list (datetime * string)) :=
  match fmt with
  | EmptyString => Some [(acc, s)]
  | String c r =>
      if Ascii.eqb c "%" then
        match r with
        | String d r' =>
            match alts d s with
            | Some l =>
                fold_right
                  (fun '(v, s') rest =>
                     match match_format r' s' (store d v acc), rest with
                     | Some here, Some there => Some (here ++ there)
                     | _, _ => None
                     end)
                  (Some []) l
            | None => None
            end
        | EmptyString => None
        end
      else
        match s with
        | String a s' =>
            if Ascii.eqb (lower a) (lower c) then match_format r s' acc
            else Some []
        | EmptyString => Some []
        end
  end.

(** Fields that the format does not set keep these values. *)
Definition strptime_default : datetime := mkDatetime 1900 1 1 0 0 0 0.

(** [datetime.strptime(s, fmt)]. *)
Definition strptime (s fmt : string) : result Exn datetime :=
  match match_format fmt s strptime_default with
  | None => Raise (ValueError "bad directive in format")
  | Some [] => Raise (ValueError "time data does not match format")
  | Some ((t, rest) :: _) =>
      match rest with
      | EmptyString =>
          if valid_date (year t) (month t) (day t) then Return t
          else Raise (ValueError "day is out of range for month")
      | String _ _ => Raise (ValueError "unconverted data remains")
      end
  end.

(** [t.isoformat()] of a moment without time zone: the microseconds are
    written only when they are not zero. *)
Definition pad6 (n : N) : string := pad2 (n / 10000) +:+ pad4 (n mod 10000).

Definition isoformat (t : datetime) : string :=
  pad4 (year t) +:+ "-" +:+ pad2 (month t) +:+ "-" +:+ pad2 (day t)
    +:+ "T" +:+ pad2 (hour t) +:+ ":" +:+ pad2 (minute t) +:+ ":"
    +:+ pad2 (second t)
    +:+ (if microsecond t =? 0 then "" else "." +:+ pad6 (microsecond t)).

(** *** [base64.b64decode] in its default, non-validating mode

    The text is first encoded as ASCII ([ValueError] on any other
    character) and handed to [binascii.a2b_base64], a loop over the
    characters that keeps the position inside the current group of four
    ([quad_pos]), the bits left over from the last character ([leftchar])
    and the length of the current run of [=] ([pads]); characters outside
    the alphabet are skipped.  This is the loop of CPython 3.11 and
    later; the message for a lone extra character leaves out the count
    that CPython prints. *)

Definition b64_table (c : ascii) : option N :=
  if in_range "A" "Z" c then Some (ord c - 65)
  else if in_range "a" "z" c then Some (ord c - 97 + 26)
  else if in_range "0" "9" c then Some (ord c - 48 + 52)
  else if Ascii.eqb c "+" then Some 62
  else if Ascii.eqb c "/" then Some 63
  else None.

(** A store into the [unsigned char] output buffer. *)
Definition u8 (n : N) : N := n mod 256.

Fixpoint a2b_loop (s : string) (quad_pos leftchar pads : N) (out : list N)
  : result Exn (list N) :=
  match s with
  | EmptyString =>
      if quad_pos =? 0 then Return out
      else if quad_pos =? 1 then
        Raise (BinasciiError
          "Invalid base64-encoded string: number of data characters cannot be 1 more than a multiple of 4")
      else Raise (BinasciiError "Incorrect padding")
  | String c r =>
      if Ascii.eqb c "=" then
        if 2 <=? quad_pos then
          if 4 <=? quad_pos + (pads + 1) then Return out
          else a2b_loop r quad_pos leftchar (pads + 1) out
        else a2b_loop r quad_pos leftchar pads out
      else
        match b64_table c with
        | None => a2b_loop r quad_pos leftchar pads out
        | Some v =>
            match quad_pos with
            | 0 => a2b_loop r 1 v 0 out
            | 1 =>
                a2b_loop r 2 (N.land v 15) 0
                  (out ++ [u8 (N.lor (N.shiftl leftchar 2) (N.shiftr v 4))])
            | 2 =>
                a2b_loop r 3 (N.land v 3) 0
                  (out ++ [u8 (N.lor (N.shiftl leftchar 4) (N.shiftr v 2))])
            | _ =>
                a2b_loop r 0 0 0
                  (out ++ [u8 (N.lor (N.shiftl leftchar 6) v)])
            end
        end
  end.

Definition a2b_base64 (s : string) : result Exn (list N) := a2b_loop s 0 0 0 [].

Definition is_ascii (c : ascii) : bool := ord c <? 128.

Definition b64decode (s : string) : result Exn (list N) :=
  if forallb is_ascii (chars s) then a2b_base64 s
  else Raise (ValueError "string argument should contain only ASCII characters").

(** The standard encoder, [base64.b64encode]: the payload of a data URI
    is its output on the image's bytes. *)
Definition b64_alphabet : string :=
  "ABCDEFGHIJKLMNOPQRSTUVWXYZabcdefghijklmnopqrstuvwxyz0123456789+/".

Definition b64_chr (v : N) : ascii :=
  match String.get (N.to_nat v) b64_alphabet with
  | Some c => c
  | None => "="%char
  end.

Fixpoint b64encode (bs : list N) : string :=
  match bs with
  | [] => EmptyString
  | [a] =>
      String (b64_chr (N.shiftr a 2))
        (String (b64_chr (N.shiftl (N.land a 3) 4)) "==")
  | [a; b] =>
      String (b64_chr (N.shiftr a 2))
        (String (b64_chr (N.lor (N.shiftl (N.land a 3) 4) (N.shiftr b 4)))
           (String (b64_chr (N.shiftl (N.land b 15) 2)) "="))
  | a :: b :: c :: r =>
      String (b64_chr (N.shiftr a 2))
        (String (b64_chr (N.lor (N.shiftl (N.land a 3) 4) (N.shiftr b 4)))
           (String (b64_chr (N.lor (N.shiftl (N.land b 15) 2) (N.shiftr c 6)))
              (String (b64_chr (N.land c 63)) (b64encode r))))
  end.

(** *** [uuid.UUID.hex]: the 128-bit value as 32 lower-case hexadecimal
    digits ([that is, '%032x' % int]) *)

Definition hex_chr (d : N) : ascii :=
  if d <? 10 then chr (48 + d) else chr (87 + d).

Fixpoint hex_digits (k : nat) (n : N) (acc : string) : string :=
  match k with
  | O => acc
  | S k' => hex_digits k' (n / 16) (String (hex_chr (n mod 16)) acc)
  end.

Definition uuid_hex (int : N) : string := hex_digits 32 int EmptyString.

Definition is_hex (c : ascii) : bool :=
  in_range "0" "9" c || in_range "a" "f" c.

(** *** Paths *)

Definition starts_with_slash (s : string) : bool :=
  match s with
  | String c _ => Ascii.eqb c "/"
  | EmptyString => false
  end.

Fixpoint ends_with_slash (s : string) : bool :=
  match s with
  | EmptyString => false
  | String c EmptyString => Ascii.eqb c "/"
  | String _ r => ends_with_slash r
  end.

(** [os.path.join(a, b)] on POSIX. *)
Definition os_path_join (a b : string) : string :=
  if starts_with_slash b then b
  else if (String.length a =? 0)%nat || ends_with_slash a then a +:+ b
  else a +:+ "/" +:+ b.

(** [str(pathlib.Path(a) / b)] on POSIX: the parts of both operands,
    without empty and [.] components, joined by [/]; an absolute right
    operand replaces the left one (exactly two leading slashes are kept). *)
Definition path_parts (s : string) : list string :=
  List.filter (fun p => negb (String.eqb p "" || String.eqb p ".")) (split "/" s).

Definition path_root (s : string) : string :=
  match s with
  | String a (String b (String c _)) =>
      if Ascii.eqb a "/" then
        if Ascii.eqb b "/" then (if Ascii.eqb c "/" then "/" else "//") else "/"
      else ""
  | String a (String b EmptyString) =>
      if Ascii.eqb a "/" then (if Ascii.eqb b "/" then "//" else "/") else ""
  | String a EmptyString => if Ascii.eqb a "/" then "/" else ""
  | EmptyString => ""
  end.

Definition path_str (root : string) (parts : list string) : string :=
  match root, parts with
  | EmptyString, [] => "."
  | _, _ => root +:+ String.concat "/" parts
  end.

Definition pathlib_div (a b : string) : string :=
  if starts_with_slash b then path_str (path_root b) (path_parts b)
  else path_str (path_root a) (path_parts a ++ path_parts b).

(** *** Parsed JSON *)

#[warnings="-register-all"]
Inductive JValue : Type :=
| JNull
| JBool (b : bool)
| JNum (n : Z)
| JStr (s : string)
| JArr (items : list JValue)
| JObj (items : list (string * JValue)).

(** A [dict] with string keys: its items in insertion order, looked up
    by key. *)
Fixpoint dict_get {A} (k : string) (d : list (string * A)) : option A :=
  match d with
  | [] => None
  | (k', v) :: r => if String.eqb k' k then Some v else dict_get k r
  end.

End Py.
Export Py.

(** ** The file system *)

Module FS.

Inductive node : Type :=
| File (content : list N)
| Dir.

(** What the operating system finds at each path. *)
Abbreviation t := (gmap string node).

(** [os.path.exists]. *)
Definition exists_ (fs : t) (path : string) : bool :=
  match fs !! path with
  | Some _ => true
  | None => false
  end.

Definition read_file (fs : t) (path : string) : option (list N) :=
  match fs !! path with
  | Some (File bs) => Some bs
  | _ => None
  end.

End FS.

(** ** What the handlers do not implement themselves *)

(** [pisa.CreatePDF(src, dest=f)] writes to the open file [f] and then
    returns a status with an error flag, or raises. *)
Inductive pisa_outcome : Type :=
| PisaReturned (written : list N) (err : bool)
| PisaRaised (written : list N) (e : Exn).

(** [doc.build(story)] on a [SimpleDocTemplate] of a path lays the story
    out and saves the file at the end: it produces the document, or
    raises, before the file is opened ([None]) or after it has written
    some bytes to it. *)
Inductive build_outcome : Type :=
| Built (data : list N)
| BuildRaised (e : Exn) (written : option (list N)).

(** ReportLab flowables, as far as the handler fills them in. *)
Inductive Flowable : Type :=
| Paragraph (text style : string)
| Spacer (width height : N)
| Table (data : list (list string)) (colWidths : list N)
| Image (data : list N) (width height : N).

Record Env : Type := {
  (** pydantic's [str] validator on a value that is not a [str]: the
      converted text (version 1 converts numbers) or a rejection. *)
  pydantic_str_other : JValue -> option string;
  (** [str(e)] for the exceptions whose text a library composes. *)
  library_str : Exn -> string;
  (** Whether the C library pads [%Y] to four digits. *)
  strftime_pads_year : bool;
  (** Whether the operating system lets the process create or truncate
      the file at a path. *)
  os_can_write : string -> bool;
  xhtml2pdf_CreatePDF : string -> pisa_outcome;
  (** The [Paragraph] constructor parses the markup of its text, the
      [Image] constructor reads the picture: [Some e] when they raise. *)
  reportlab_Paragraph : string -> option Exn;
  reportlab_Image : list N -> option Exn;
  reportlab_build : list Flowable -> build_outcome
}.

(** [str(e)]. *)
Definition exn_str (env : Env) (e : Exn) : string :=
  match e with
  | IndexError => "list index out of range"
  | ValueError m | TypeError m | BinasciiError m | LibraryError m => m
  | _ => library_str env e
  end.

(** [open(path, 'wb')]: the file exists and is empty afterwards. *)
Definition open_wb (env : Env) (fs : FS.t) (path : string) : result Exn FS.t :=
  match fs !! path with
  | Some FS.Dir => Raise (OSError path)
  | _ =>
      if os_can_write env path then Return (<[path := FS.File []]> fs)
      else Raise (OSError path)
  end.

(** [os.makedirs(name, exist_ok=True)] and [Path(name).mkdir(exist_ok=True)]
    for a name of one component: an existing directory is left alone, an
    existing file is an error. *)
Definition makedirs (env : Env) (fs : FS.t) (name : string) : result Exn FS.t :=
  match fs !! name with
  | Some FS.Dir => Return fs
  | Some (FS.File _) => Raise (OSError name)
  | None =>
      if os_can_write env name then Return (<[name := FS.Dir]> fs)
      else Raise (OSError name)
  end.

(** ** pydantic models of eleven [str] fields *)

Module Pydantic.

Definition validate_str (env : Env) (v : JValue) : option string :=
  match v with
  | JStr s => Some s
  | _ => pydantic_str_other env v
  end.

(** One field of the keyword arguments: its validated value, or the
    entry it adds to the error list. *)
Definition field (env : Env) (kw : list (string * JValue)) (name : string)
  : (string * string) + string :=
  match dict_get name kw with
  | None => inl (name, "missing")
  | Some v =>
      match validate_str env v with
      | Some s => inr s
      | None => inl (name, "string_type")
      end
  end.

Definition errors (rs : list ((string * string) + string)) : list (string * string) :=
  omap (fun r => match r with inl e => Some e | inr _ => None end) rs.

(** The fields that both models declare. *)
Definition field_names : list string :=
  ["date"; "designation"; "joiningDate"; "nationality"; "passportNumber"; "issueLocation"; "issueDate"; "expiryDate"; "employeeName"; "employeeCode"; "signature"].

End Pydantic.

(** ** HTTP responses *)

Inductive Response : Type :=
| JSONResponse (status_code : nat) (content : JValue)
| FileResponse (path : string) (filename : option string) (media_type : string).

(** What reaches the client. *)
Inductive Payload : Type :=
| Json (v : JValue)
| Bytes (bs : list N)
| Text (s : string).

Record Reply : Type := mkReply {
  status : nat;
  content_type : string;
  disposition : option string;
  payload : Payload
}.

Module FastAPI.

(** A handler's dictionary is sent as JSON with status 200; an
    [HTTPException] becomes its status with the detail as JSON body; any
    other exception is a plain 500. *)
Definition respond (r : result Exn Response) : result Exn Response :=
  match r with
  | Raise (HTTPException st detail) =>
      Return (JSONResponse st (JObj [("detail", JStr detail)]))
  | _ => r
  end.

(** Sending a response: a [FileResponse] reads the file when it is sent
    and fails unless the path is a regular file. *)
Definition send (fs : FS.t) (r : result Exn Response) : Reply :=
  match respond r with
  | Return (JSONResponse st v) => mkReply st "application/json" None (Json v)
  | Return (FileResponse path name media) =>
      match FS.read_file fs path with
      | Some bs =>
          mkReply 200 media
            (match name with
             | Some n => Some ("attachment; filename=" +:+ dq +:+ n +:+ dq)
             | None => None
             end)
            (Bytes bs)
      | None => mkReply 500 "text/plain" None (Text "Internal Server Error")
      end
  | Raise _ => mkReply 500 "text/plain" None (Text "Internal Server Error")
  end.

End FastAPI.

(** ** [src/app/api/passport.py]: the structured-layout variant *)

Module Passport.

Definition pdf_folder : string := "pdf_output".

Record PassportForm : Type := mkPassportForm {
  date : string;
  designation : string;
  joiningDate : string;
  nationality : string;
  passportNumber : string;
  issueLocation : string;
  issueDate : string;
  expiryDate : string;
  employeeName : string;
  employeeCode : string;
  signature : string
}.

(** The constructor of [PassportForm] on keyword arguments: every field is
    validated, and the errors of all of them are reported together. *)
Definition PassportForm_init (env : Env) (kw : list (string * JValue))
  : result Exn PassportForm :=
  let f := Pydantic.field env kw in
  match f "date", f "designation", f "joiningDate", f "nationality", f "passportNumber", f "issueLocation", f "issueDate", f "expiryDate", f "employeeName", f "employeeCode", f "signature" with
  | inr v0, inr v1, inr v2, inr v3, inr v4, inr v5, inr v6, inr v7, inr v8, inr v9, inr v10 =>
      Return (mkPassportForm v0 v1 v2 v3 v4 v5 v6 v7 v8 v9 v10)
  | r0, r1, r2, r3, r4, r5, r6, r7, r8, r9, r10 =>
      Raise (ValidationError "PassportForm" (Pydantic.errors [r0; r1; r2; r3; r4; r5; r6; r7; r8; r9; r10]))
  end.

(** The fields with their values, in declaration order. *)
Definition items (form : PassportForm) : list (string * string) :=
  [("date", date form);
   ("designation", designation form);
   ("joiningDate", joiningDate form);
   ("nationality", nationality form);
   ("passportNumber", passportNumber form);
   ("issueLocation", issueLocation form);
   ("issueDate", issueDate form);
   ("expiryDate", expiryDate form);
   ("employeeName", employeeName form);
   ("employeeCode", employeeCode form);
   ("signature", signature form)].

(** [form.dict()], as the JSON encoder writes it. *)
Definition dict (form : PassportForm) : JValue :=
  JObj (map (fun kv => (fst kv, JStr (snd kv))) (items form)).

Definition filename_of (env : Env) (now : datetime) (form : PassportForm) : string :=
  "passport_" +:+ employeeCode form +:+ "_"
    +:+ strftime (strftime_pads_year env) "%Y%m%d%H%M%S" now +:+ ".pdf".

(** [Paragraph(text, style)]. *)
Definition paragraph (env : Env) (text style : string) : result Exn Flowable :=
  match reportlab_Paragraph env text with
  | Some e => Raise e
  | None => Return (Paragraph text style)
  end.

(** The flowables appended before the signature is looked at. *)
Definition story_head (env : Env) (form : PassportForm)
  : result Exn (list Flowable) :=
  try! title := paragraph env "Passport Declaration Form" "title" in
  try! company := paragraph env "<b>Indus Technical Services LLC</b>" "Normal" in
  try! address := paragraph env "P.O. Box 241075 Dubai, UAE" "Normal" in
  try! dated := paragraph env ("Date: <b>" +:+ date form +:+ "</b>") "Normal" in
  try! joined :=
    paragraph env
      ("I have joined Indus Technical Services LLC as a <b>"
         +:+ designation form +:+ "</b> " +:+ "on <b>"
         +:+ joiningDate form +:+ "</b>.") "Normal" in
  try! request :=
    paragraph env
      "I request the company to retain my passport for safekeeping. The details of my passport are as follows:"
      "Normal" in
  let table :=
    Table
      [ ["Nationality"; nationality form; "Passport Number"; passportNumber form];
        ["Issued Location"; issueLocation form; "Date of Issue"; issueDate form];
        ["Date of Expiry"; expiryDate form; ""; ""] ]
      [100; 150; 120; 150]%N in
  try! closing :=
    paragraph env
      "I agree that my passport will be handed over to me whenever required by me as per my request and the same will be returned to the company on the mentioned date."
      "Normal" in
  try! name_line :=
    paragraph env ("Employee Name: <b>" +:+ employeeName form +:+ "</b>") "Normal" in
  try! code_line :=
    paragraph env ("Employee Code: <b>" +:+ employeeCode form +:+ "</b>") "Normal" in
  Return
    [ title; Spacer 1 20;
      company; address; Spacer 1 20;
      dated; Spacer 1 10;
      joined; Spacer 1 10;
      request; Spacer 1 15;
      table; Spacer 1 20;
      closing; Spacer 1 40;
      name_line; code_line; Spacer 1 20 ].

(** [base64.b64decode(form.signature.split(",")[1])]. *)
Definition signature_bytes (signature : string) : result Exn (list N) :=
  try! signature_data := index (split "," signature) 1 in
  b64decode signature_data.

(** Everything up to [doc.build]: none of it touches the file system. *)
Definition story_of (env : Env) (form : PassportForm) : result Exn (list Flowable) :=
  try! head := story_head env form in
  try! bytes := signature_bytes (signature form) in
  match reportlab_Image env bytes with
  | Some e => Raise e
  | None =>
      try! label := paragraph env "Signature:" "Normal" in
      Return (head ++ [label; Image bytes 120 60])
  end.

(** [doc.build(story)] for the document at [path]. *)
Definition build (env : Env) (path : string) (story : list Flowable) (fs : FS.t)
  : result Exn unit * FS.t :=
  match reportlab_build env story with
  | Built data =>
      match open_wb env fs path with
      | Return fs' => (Return tt, <[path := FS.File data]> fs')
      | Raise e => (Raise e, fs)
      end
  | BuildRaised e None => (Raise e, fs)
  | BuildRaised e (Some data) =>
      match open_wb env fs path with
      | Return fs' => (Raise e, <[path := FS.File data]> fs')
      | Raise e' => (Raise e', fs)
      end
  end.

Definition error_response (env : Env) (e : Exn) : Response :=
  JSONResponse 500 (JObj [("error", JStr (exn_str env e))]).

Definition create_passport (env : Env) (now : datetime) (form : PassportForm)
  (fs : FS.t) : Response * FS.t :=
  let filename := filename_of env now form in
  let pdf_path := pathlib_div pdf_folder filename in
  match story_of env form with
  | Raise e => (error_response env e, fs)
  | Return story =>
      match build env pdf_path story fs with
      | (Raise e, fs') => (error_response env e, fs')
      | (Return _, fs') =>
          (JSONResponse 200
             (JObj [("message",
                     JStr "Form data received and professional PDF generated");
                    ("data", dict form);
                    ("pdf_file", JStr pdf_path)]),
           fs')
      end
  end.

(** The route: the framework validates the body against [PassportForm]
    before it calls the handler, and answers 422 with the error list
    itself when that fails. *)
Definition post_api_passport (env : Env) (now : datetime) (body : JValue)
  (fs : FS.t) : Response * FS.t :=
  match body with
  | JObj kw =>
      match PassportForm_init env kw with
      | Return form => create_passport env now form fs
      | Raise e =>
          (JSONResponse 422 (JObj [("detail", JStr (exn_str env e))]), fs)
      end
  | _ =>
      (JSONResponse 422
         (JObj [("detail", JStr "Input should be a valid dictionary")]), fs)
  end.

(** What importing the module does to the store. *)
Definition module_init (env : Env) (fs : FS.t) : result Exn FS.t :=
  makedirs env fs pdf_folder.

End Passport.

(** ** [src/main.py]: the template variant *)

Module Main.

Definition pdf_files : string := "pdf_files".

Record PassportDeclaration : Type := mkPassportDeclaration {
  date : string;
  designation : string;
  joiningDate : string;
  nationality : string;
  passportNumber : string;
  issueLocation : string;
  issueDate : string;
  expiryDate : string;
  employeeName : string;
  employeeCode : string;
  signature : string
}.

(** The constructor of [PassportDeclaration] on keyword arguments: every field is
    validated, and the errors of all of them are reported together. *)
Definition PassportDeclaration_init (env : Env) (kw : list (string * JValue))
  : result Exn PassportDeclaration :=
  let f := Pydantic.field env kw in
  match f "date", f "designation", f "joiningDate", f "nationality", f "passportNumber", f "issueLocation", f "issueDate", f "expiryDate", f "employeeName", f "employeeCode", f "signature" with
  | inr v0, inr v1, inr v2, inr v3, inr v4, inr v5, inr v6, inr v7, inr v8, inr v9, inr v10 =>
      Return (mkPassportDeclaration v0 v1 v2 v3 v4 v5 v6 v7 v8 v9 v10)
  | r0, r1, r2, r3, r4, r5, r6, r7, r8, r9, r10 =>
      Raise (ValidationError "PassportDeclaration" (Pydantic.errors [r0; r1; r2; r3; r4; r5; r6; r7; r8; r9; r10]))
  end.

(** The fields with their values, in declaration order. *)
Definition items (declaration : PassportDeclaration) : list (string * string) :=
  [("date", date declaration);
   ("designation", designation declaration);
   ("joiningDate", joiningDate declaration);
   ("nationality", nationality declaration);
   ("passportNumber", passportNumber declaration);
   ("issueLocation", issueLocation declaration);
   ("issueDate", issueDate declaration);
   ("expiryDate", expiryDate declaration);
   ("employeeName", employeeName declaration);
   ("employeeCode", employeeCode declaration);
   ("signature", signature declaration)].

Definition format_date (env : Env) (date_str : string) : string :=
  match strptime date_str "%Y-%m-%d" with
  | Return date_obj => strftime (strftime_pads_year env) "%d %B, %Y" date_obj
  | Raise _ => date_str
  end.

Definition generate_pdf_html (env : Env) (now : datetime)
  (declaration : PassportDeclaration) : string :=
  String.concat ""
    [ nl;
      "    <!DOCTYPE html>"; nl;
      "    <html lang="; dq; "en"; dq; ">"; nl;
      "    <head>"; nl;
      "        <meta charset="; dq; "UTF-8"; dq; ">"; nl;
      "        <meta name="; dq; "viewport"; dq; " content="; dq; "width=device-width, initial-scale=1.0"; dq; ">"; nl;
      "        <title>Passport Declaration - "; employeeName declaration; "</title>"; nl;
      "        <style>"; nl;
      "            body {"; nl;
      "                font-family: Arial, sans-serif;"; nl;
      "                line-height: 1.6;"; nl;
      "                color: #333;"; nl;
      "                max-width: 800px;"; nl;
      "                margin: 0 auto;"; nl;
      "                padding: 20px;"; nl;
      "            }"; nl;
      "            .header {"; nl;
      "                text-align: center;"; nl;
      "                margin-bottom: 30px;"; nl;
      "                border-bottom: 2px solid #1a5ca3;"; nl;
      "                padding-bottom: 20px;"; nl;
      "            }"; nl;
      "            .company-name {"; nl;
      "                font-size: 24px;"; nl;
      "                font-weight: bold;"; nl;
      "                color: #1a5ca3;"; nl;
      "            }"; nl;
      "            .document-title {"; nl;
      "                font-size: 20px;"; nl;
      "                margin-top: 10px;"; nl;
      "            }"; nl;
      "            .section {"; nl;
      "                margin-bottom: 20px;"; nl;
      "            }"; nl;
      "            .section-title {"; nl;
      "                font-size: 18px;"; nl;
      "                color: #1a5ca3;"; nl;
      "                border-bottom: 1px solid #ddd;"; nl;
      "                padding-bottom: 5px;"; nl;
      "                margin-bottom: 10px;"; nl;
      "            }"; nl;
      "            .info-row {"; nl;
      "                display: flex;"; nl;
      "                margin-bottom: 8px;"; nl;
      "            }"; nl;
      "            .info-label {"; nl;
      "                width: 200px;"; nl;
      "                font-weight: bold;"; nl;
      "            }"; nl;
      "            .info-value {"; nl;
      "                flex: 1;"; nl;
      "            }"; nl;
      "            .signature-area {"; nl;
      "                margin-top: 40px;"; nl;
      "                text-align: center;"; nl;
      "            }"; nl;
      "            .signature-img {"; nl;
      "                max-width: 300px;"; nl;
      "                border: 1px solid #ddd;"; nl;
      "                margin-bottom: 10px;"; nl;
      "            }"; nl;
      "            .footer {"; nl;
      "                margin-top: 50px;"; nl;
      "                text-align: center;"; nl;
      "                font-size: 14px;"; nl;
      "                color: #777;"; nl;
      "            }"; nl;
      "        </style>"; nl;
      "    </head>"; nl;
      "    <body>"; nl;
      "        <div class="; dq; "header"; dq; ">"; nl;
      "            <div class="; dq; "company-name"; dq; ">Indus Technical Services LLC</div>"; nl;
      "            <div class="; dq; "document-title"; dq; ">PASSPORT DECLARATION</div>"; nl;
      "        </div>"; nl;
      "        "; nl;
      "        <div class="; dq; "section"; dq; ">"; nl;
      "            <div class="; dq; "info-row"; dq; ">"; nl;
      "                <div class="; dq; "info-label"; dq; ">Date:</div>"; nl;
      "                <div class="; dq; "info-value"; dq; ">"; format_date env (date declaration); "</div>"; nl;
      "            </div>"; nl;
      "        </div>"; nl;
      "        "; nl;
      "        <div class="; dq; "section"; dq; ">"; nl;
      "            <p>Dear Sir/Madam,</p>"; nl;
      "            <p>I have joined Indus Technical Services LLC as a "; designation declaration; " (Designation) on "; format_date env (joiningDate declaration); " (Date of Joining).</p>"; nl;
      "            <p>I request the company to retain my passport for safekeeping. The details of my passport are as follows;</p>"; nl;
      "        </div>"; nl;
      "        "; nl;
      "        <div class="; dq; "section"; dq; ">"; nl;
      "            <div class="; dq; "section-title"; dq; ">Passport Details</div>"; nl;
      "            <div class="; dq; "info-row"; dq; ">"; nl;
      "                <div class="; dq; "info-label"; dq; ">Nationality:</div>"; nl;
      "                <div class="; dq; "info-value"; dq; ">"; nationality declaration; "</div>"; nl;
      "            </div>"; nl;
      "            <div class="; dq; "info-row"; dq; ">"; nl;
      "                <div class="; dq; "info-label"; dq; ">Passport Number:</div>"; nl;
      "                <div class="; dq; "info-value"; dq; ">"; passportNumber declaration; "</div>"; nl;
      "            </div>"; nl;
      "            <div class="; dq; "info-row"; dq; ">"; nl;
      "                <div class="; dq; "info-label"; dq; ">Issued Location:</div>"; nl;
      "                <div class="; dq; "info-value"; dq; ">"; issueLocation declaration; "</div>"; nl;
      "            </div>"; nl;
      "            <div class="; dq; "info-row"; dq; ">"; nl;
      "                <div class="; dq; "info-label"; dq; ">Date of Issue:</div>"; nl;
      "                <div class="; dq; "info-value"; dq; ">"; format_date env (issueDate declaration); "</div>"; nl;
      "            </div>"; nl;
      "            <div class="; dq; "info-row"; dq; ">"; nl;
      "                <div class="; dq; "info-label"; dq; ">Date of Expiry:</div>"; nl;
      "                <div class="; dq; "info-value"; dq; ">"; format_date env (expiryDate declaration); "</div>"; nl;
      "            </div>"; nl;
      "        </div>"; nl;
      "        "; nl;
      "        <div class="; dq; "section"; dq; ">"; nl;
      "            <p>I agree that my passport will be handed over to me whenever required by me as per my request and same will be returned to the company on the mentioned date.</p>"; nl;
      "        </div>"; nl;
      "        "; nl;
      "        <div class="; dq; "section"; dq; ">"; nl;
      "            <div class="; dq; "section-title"; dq; ">Employee Information</div>"; nl;
      "            <div class="; dq; "info-row"; dq; ">"; nl;
      "                <div class="; dq; "info-label"; dq; ">Employee Name:</div>"; nl;
      "                <div class="; dq; "info-value"; dq; ">"; employeeName declaration; "</div>"; nl;
      "            </div>"; nl;
      "            <div class="; dq; "info-row"; dq; ">"; nl;
      "                <div class="; dq; "info-label"; dq; ">Employee Code:</div>"; nl;
      "                <div class="; dq; "info-value"; dq; ">"; employeeCode declaration; "</div>"; nl;
      "            </div>"; nl;
      "        </div>"; nl;
      "        "; nl;
      "        <div class="; dq; "signature-area"; dq; ">"; nl;
      "            <div>Signature:</div>"; nl;
      "            <img class="; dq; "signature-img"; dq; " src="; dq; signature declaration; dq; " alt="; dq; "Signature"; dq; ">"; nl;
      "        </div>"; nl;
      "        "; nl;
      "        <div class="; dq; "footer"; dq; ">"; nl;
      "            <p>Indus Technical Services LLC &copy; "; dec (year now); ". All rights reserved.</p>"; nl;
      "            <p>P.O. Box 241075 Dubai, UAE</p>"; nl;
      "        </div>"; nl;
      "    </body>"; nl;
      "    </html>"; nl;
      "    " ].

Definition filename_of (uuid4 : N) (declaration : PassportDeclaration) : string :=
  "passport_declaration_" +:+ employeeCode declaration +:+ "_"
    +:+ take_prefix 8 (uuid_hex uuid4) +:+ ".pdf".

(** [with open(filepath, "wb") as f: pisa_status = pisa.CreatePDF(html, dest=f)]:
    the file is opened first, and closed whether or not the engine
    raises. *)
Definition write_pdf (env : Env) (filepath html : string) (fs : FS.t)
  : result Exn bool * FS.t :=
  match open_wb env fs filepath with
  | Raise e => (Raise e, fs)
  | Return fs' =>
      match xhtml2pdf_CreatePDF env html with
      | PisaReturned written err =>
          (Return err, <[filepath := FS.File written]> fs')
      | PisaRaised written e =>
          (Raise e, <[filepath := FS.File written]> fs')
      end
  end.

(** The body of the [try] block. *)
Definition submit_body (env : Env) (now : datetime) (uuid4 : N)
  (request_json : result Exn JValue) (fs : FS.t) : result Exn Response * FS.t :=
  match request_json with
  | Raise e => (Raise e, fs)
  | Return (JObj form_data) =>
      match PassportDeclaration_init env form_data with
      | Raise e => (Raise e, fs)
      | Return declaration =>
          let filename := filename_of uuid4 declaration in
          let filepath := os_path_join pdf_files filename in
          let html_content := generate_pdf_html env now declaration in
          match write_pdf env filepath html_content fs with
          | (Raise e, fs') => (Raise e, fs')
          | (Return true, fs') =>
              (Raise (HTTPException 500 "PDF generation failed"), fs')
          | (Return false, fs') =>
              (Return
                 (JSONResponse 200
                    (JObj [("message",
                            JStr "Passport declaration submitted successfully");
                           ("pdf_file", JStr filename);
                           ("download_url", JStr ("/download/" +:+ filename));
                           ("view_url", JStr ("/view/" +:+ filename))])),
               fs')
          end
      end
  | Return _ =>
      (Raise (TypeError "argument after ** must be a mapping"), fs)
  end.

(** [except Exception as e: raise HTTPException(500, ...)] around it. *)
Definition submit_passport_declaration (env : Env) (now : datetime) (uuid4 : N)
  (request_json : result Exn JValue) (fs : FS.t) : result Exn Response * FS.t :=
  match submit_body env now uuid4 request_json fs with
  | (Raise e, fs') =>
      (Raise (HTTPException 500 ("Error generating PDF: " +:+ exn_str env e)), fs')
  | ok => ok
  end.

Definition download_pdf (env : Env) (now : datetime) (filename : string)
  (fs : FS.t) : result Exn Response * FS.t :=
  let filepath := os_path_join pdf_files filename in
  if negb (FS.exists_ fs filepath) then
    (Raise (HTTPException 404 "File not found"), fs)
  else
    (Return
       (FileResponse filepath
          (Some ("passport_declaration_"
                   +:+ strftime (strftime_pads_year env) "%Y%m%d" now +:+ ".pdf"))
          "application/pdf"),
     fs).

Definition view_pdf (filename : string) (fs : FS.t) : result Exn Response * FS.t :=
  let filepath := os_path_join pdf_files filename in
  if negb (FS.exists_ fs filepath) then
    (Raise (HTTPException 404 "File not found"), fs)
  else (Return (FileResponse filepath None "application/pdf"), fs).

(** A request as the client sees it: the handler runs on the store, its
    result is sent from the store it leaves. *)
Definition serve (h : FS.t -> result Exn Response * FS.t) (fs : FS.t) : Reply * FS.t :=
  let '(r, fs') := h fs in (FastAPI.send fs' r, fs').

(** What importing the module does to the store. *)
Definition module_init (env : Env) (fs : FS.t) : result Exn FS.t :=
  try! fs1 := makedirs env fs "pdf_files" in
  makedirs env fs1 "templates".

Definition health_check (now : datetime) (fs : FS.t)
  : result Exn Response * FS.t :=
  (Return
     (JSONResponse 200
        (JObj [("status", JStr "healthy");
               ("timestamp", JStr (isoformat now))])),
   fs).

End Main.

(** ** Vocabulary of the statements *)

(** [p] holds of every number below [k]. *)
Fixpoint all_below (k : nat) (p : N -> bool) : bool :=
  match k with
  | O => true
  | S k' => p (N.of_nat k') && all_below k' p
  end.

(** The ISO text of a date: [YYYY-MM-DD]. *)
Definition iso_date (y m d : N) : string :=
  pad4 y +:+ "-" +:+ pad2 m +:+ "-" +:+ pad2 d.

(** The year as [%Y] prints it. *)
Definition year_text (env : Env) (y : N) : string :=
  if strftime_pads_year env then pad4 y else dec y.

(** Day, full month name, comma, year. *)
Definition long_date (env : Env) (t : datetime) : string :=
  pad2 (day t) +:+ " " +:+ month_name (month t) +:+ ", " +:+ year_text env (year t).

(** The four six-bit groups of three bytes. *)
Definition sextet1 (a : N) : N := N.shiftr a 2.
Definition sextet2 (a b : N) : N :=
  N.lor (N.shiftl (N.land a 3) 4) (N.shiftr b 4).
Definition sextet3 (b c : N) : N :=
  N.lor (N.shiftl (N.land b 15) 2) (N.shiftr c 6).
Definition sextet4 (c : N) : N := N.land c 63.

Definition is_bytes (bs : list N) : Prop := Forall (fun b => (b < 256)%N) bs.

(** A signature as the form page sends it. *)
Definition data_uri (payload : string) : string :=
  "data:image/png;base64," +:+ payload.

(** What the validator has checked about a field of the record. *)
Definition validated (env : Env) (kw : list (string * JValue))
  (kv : string * string) : Prop :=
  exists v, dict_get (fst kv) kw = Some v /\
            Pydantic.validate_str env v = Some (snd kv).

(** A field that is missing from the body, or whose value the [str]
    validator refuses. *)
Definition refused (env : Env) (kw : list (string * JValue)) (name : string) : Prop :=
  dict_get name kw = None \/
  exists v, dict_get name kw = Some v /\ Pydantic.validate_str env v = None.

(** The path at which the template variant stores a declaration. *)
Definition filepath_of (uuid4 : N) (declaration : Main.PassportDeclaration) : string :=
  os_path_join Main.pdf_files (Main.filename_of uuid4 declaration).

(** What reaches the client when the handler's [try] block raises [e]. *)
Definition error_reply (env : Env) (e : Exn) : Reply :=
  mkReply 500 "application/json" None
    (Json (JObj [("detail", JStr ("Error generating PDF: " +:+ exn_str env e))])).

(** The uniqueness token of the structured-layout variant. *)
Definition timestamp (env : Env) (now : datetime) : string :=
  strftime (strftime_pads_year env) "%Y%m%d%H%M%S" now.

(** The uniqueness token of the template variant. *)
Definition hex8 (uuid4 : N) : string := take_prefix 8 (uuid_hex uuid4).

Definition same_second (t1 t2 : datetime) : Prop :=
  year t1 = year t2 /\ month t1 = month t2 /\ day t1 = day t2 /\
  hour t1 = hour t2 /\ minute t1 = minute t2 /\ second t1 = second t2.

(** The items of a JSON response. *)
Definition response_items (r : Response) : list (string * JValue) :=
  match r with
  | JSONResponse _ (JObj items) => items
  | _ => []
  end.

(** The name under which a download is offered. *)
Definition display_name (env : Env) (now : datetime) : string :=
  "passport_declaration_" +:+ strftime (strftime_pads_year env) "%Y%m%d" now
    +:+ ".pdf".

Definition date_text (env : Env) (now : datetime) : string :=
  year_text env (year now) +:+ pad2 (month now) +:+ pad2 (day now).

(** The text of a date whose month and day carry no leading zero. *)
Definition unpadded_date (y m d : N) : string :=
  pad4 y +:+ "-" +:+ dec m +:+ "-" +:+ dec d.

(** The entry that a refused field adds to the error list. *)
Definition error_entry (env : Env) (kw : list (string * JValue))
  (name kind : string) : Prop :=
  (kind = "missing" /\ dict_get name kw = None) \/
  (kind = "string_type" /\
   exists v, dict_get name kw = Some v /\ Pydantic.validate_str env v = None).

(** [x] occurs in [s]. *)
Definition occurs_in (x s : string) : Prop :=
  exists before after, s = before +:+ x +:+ after.

(** ** A concrete deployment and concrete requests *)

Module Demo.

(** The four bytes [%PDF]. *)
Definition pdf_magic : list N := [37; 80; 68; 70]%N.

(** The bytes of the pictures in a story. *)
Definition pictures (story : list Flowable) : list N :=
  flat_map (fun f => match f with Image data _ _ => data | _ => [] end) story.

(** pydantic refuses what is not a [str], the store is writable and both
    engines produce a document; the one ReportLab builds holds the
    pictures of the story. *)
Definition env : Env := {|
  pydantic_str_other := fun _ => None;
  library_str := fun e =>
    match e with
    | HTTPException st detail => detail
    | ValidationError model errs => String.concat ", " (map fst errs)
    | _ => "error"
    end;
  strftime_pads_year := false;
  os_can_write := fun _ => true;
  xhtml2pdf_CreatePDF := fun _ => PisaReturned pdf_magic false;
  reportlab_Paragraph := fun _ => None;
  reportlab_Image := fun _ => None;
  reportlab_build := fun story => Built (pdf_magic ++ pictures story)
|}.

(** The same deployment with an engine that reports an error after it
    has written a few bytes. *)
Definition env_failing : Env := {|
  pydantic_str_other := pydantic_str_other env;
  library_str := library_str env;
  strftime_pads_year := strftime_pads_year env;
  os_can_write := os_can_write env;
  xhtml2pdf_CreatePDF := fun _ => PisaReturned [37]%N true;
  reportlab_Paragraph := reportlab_Paragraph env;
  reportlab_Image := reportlab_Image env;
  reportlab_build := fun _ => BuildRaised (LibraryError "layout error") None
|}.

Definition body_with (code sig : string) : list (string * JValue) :=
  [("date", JStr "2024-03-05");
   ("designation", JStr "Engineer");
   ("joiningDate", JStr "2023-11-20");
   ("nationality", JStr "Pakistani");
   ("passportNumber", JStr "AB1234567");
   ("issueLocation", JStr "Dubai");
   ("issueDate", JStr "2020-01-15");
   ("expiryDate", JStr "2030-01-14");
   ("employeeName", JStr "A. Khan");
   ("employeeCode", JStr code);
   ("signature", JStr sig)].

Definition body : list (string * JValue) :=
  body_with "E123" "data:image/png;base64,aGVsbG8=".

(** The body without its first field. *)
Definition body_missing_date : list (string * JValue) := tail body.

Definition all_empty : list (string * JValue) :=
  map (fun kv => (fst kv, JStr "")) body.

(** The body with an empty designation. *)
Definition body_empty_designation : list (string * JValue) :=
  map (fun kv => if String.eqb (fst kv) "designation"
                 then (fst kv, JStr "") else kv) body.

(** The records that validation makes of [body]. *)
Definition declaration : Main.PassportDeclaration :=
  Main.mkPassportDeclaration "2024-03-05" "Engineer" "2023-11-20"
    "Pakistani" "AB1234567" "Dubai" "2020-01-15" "2030-01-14"
    "A. Khan" "E123" "data:image/png;base64,aGVsbG8=".

Definition form : Passport.PassportForm :=
  Passport.mkPassportForm "2024-03-05" "Engineer" "2023-11-20"
    "Pakistani" "AB1234567" "Dubai" "2020-01-15" "2030-01-14"
    "A. Khan" "E123" "data:image/png;base64,aGVsbG8=".

(** Another employee's form filed under the same employee code. *)
Definition form_other : Passport.PassportForm :=
  Passport.mkPassportForm "2024-03-05" "Technician" "2022-06-01"
    "Indian" "Z7654321" "Sharjah" "2019-05-02" "2029-05-01"
    "B. Malik" "E123" "data:image/png;base64,aGVsbG8h".

Definition declaration_other : Main.PassportDeclaration :=
  Main.mkPassportDeclaration "2024-03-05" "Technician" "2022-06-01"
    "Indian" "Z7654321" "Sharjah" "2019-05-02" "2029-05-01"
    "B. Malik" "E123" "data:image/png;base64,aGVsbG8h".

(** Two version-4 identifiers that agree in their first 32 bits. *)
Definition uuid_a : N := 0x3f2a9c1e5b7d4e0fa1b2c3d4e5f60718%N.
Definition uuid_b : N := 0x3f2a9c1e00114a22b3c4d5e6f7081920%N.

(** A form whose signature is not a data URI. *)
Definition form_bad_signature : Passport.PassportForm :=
  Passport.mkPassportForm "2024-03-05" "Engineer" "2023-11-20"
    "Pakistani" "AB1234567" "Dubai" "2020-01-15" "2030-01-14"
    "A. Khan" "E123" "no comma".

Definition now : datetime := mkDatetime 2024 3 5 7 8 9 120000.
Definition a_little_later : datetime := mkDatetime 2024 3 5 7 8 9 870000.

End Demo.

(** * Properties *)

(** ** Checking a property for every number below a bound *)

Lemma all_below_spec (k : nat) (p : N -> bool) :
  all_below k p = true -> forall n, (n < N.of_nat k)%N -> p n = true.
Proof.
  induction k as [|k IH]; intros Hall n Hn.
  - lia.
  - simpl in Hall. apply andb_prop in Hall as [Hk Hrest].
    destruct (N.eq_dec n (N.of_nat k)) as [->|Hne]; [exact Hk|].
    apply IH; [exact Hrest|lia].
Qed.

Lemma N_cases_below (k : nat) (P : N -> Prop) :
  (forall i : nat, (i < k)%nat -> P (N.of_nat i)) ->
  forall n, (n < N.of_nat k)%N -> P n.
Proof.
  intros H n Hn. rewrite <- (N2Nat.id n). apply H. lia.
Qed.

(** ** Strings *)

#[local] Arguments String.append !s1 s2 : simpl nomatch.

Lemma append_assoc (a b c : string) : (a +:+ b) +:+ c = a +:+ (b +:+ c).
Proof. induction a as [|x a IH]; simpl; [reflexivity|f_equal; exact IH]. Qed.

Lemma append_nil_r (a : string) : a +:+ "" = a.
Proof. induction a as [|x a IH]; simpl; [reflexivity|f_equal; exact IH]. Qed.

Lemma of_chars_app (l1 l2 : list ascii) :
  of_chars (l1 ++ l2) = of_chars l1 +:+ of_chars l2.
Proof. induction l1 as [|x l1 IH]; simpl; [reflexivity|f_equal; exact IH]. Qed.

Lemma append_inv_head (a b c : string) : a +:+ b = a +:+ c -> b = c.
Proof.
  induction a as [|x a IH]; simpl; intros H; [exact H|].
  injection H as H. now apply IH.
Qed.

Lemma length_append (a b : string) :
  String.length (a +:+ b) = (String.length a + String.length b)%nat.
Proof. induction a as [|x a IH]; simpl; [reflexivity|f_equal; exact IH]. Qed.

Lemma append_inv_tail (a b c : string) : a +:+ c = b +:+ c -> a = b.
Proof.
  revert b. induction a as [|x a IH]; intros [|y b] H; simpl in H.
  - reflexivity.
  - apply (f_equal String.length) in H. simpl in H.
    rewrite length_append in H. lia.
  - apply (f_equal String.length) in H. simpl in H.
    rewrite length_append in H. lia.
  - injection H as -> H. f_equal. now apply IH.
Qed.

Lemma contains_append (c : ascii) (a b : string) :
  contains c (a +:+ b) = contains c a || contains c b.
Proof.
  induction a as [|x a IH]; simpl; [reflexivity|].
  rewrite IH. now rewrite orb_assoc.
Qed.

(** A piece ends only at a separator. *)
Lemma split_go_no_sep (sep : ascii) (s : string) (cur : list ascii) :
  contains sep s = false ->
  split_go sep s cur = [of_chars (rev cur) +:+ s].
Proof.
  revert cur. induction s as [|c r IH]; intros cur H; simpl in *.
  - now rewrite append_nil_r.
  - apply orb_false_elim in H as [Hc Hr]. rewrite Hc.
    rewrite (IH _ Hr). cbn [rev]. rewrite of_chars_app. rewrite append_assoc. reflexivity.
Qed.

Lemma split_no_sep (sep : ascii) (s : string) :
  contains sep s = false -> split sep s = [s].
Proof. intros H. unfold split. now rewrite split_go_no_sep. Qed.

(** ** Decimal digits *)

Ltac check_below k p Hn H :=
  pose proof (all_below_spec k p ltac:(vm_compute; reflexivity) _ Hn) as H;
  cbv beta in H.

Lemma digit_chr_facts (k : N) :
  (k < 10)%N ->
  is_digit (digit_chr k) = true /\ digit_val (digit_chr k) = k.
Proof.
  intros Hk.
  check_below 10%nat
    (fun k => is_digit (digit_chr k) && (digit_val (digit_chr k) =? k)%N) Hk H.
  apply andb_prop in H as [H1 H2].
  split; [exact H1|now apply N.eqb_eq].
Qed.

Lemma is_digit_digit_chr_mod (n : N) : is_digit (digit_chr (n mod 10)) = true.
Proof. apply digit_chr_facts. apply N.mod_lt. lia. Qed.

Lemma digit_val_digit_chr_mod (n : N) :
  digit_val (digit_chr (n mod 10)) = (n mod 10)%N.
Proof. apply digit_chr_facts. apply N.mod_lt. lia. Qed.

Ltac ndiv := zify; Z.to_euclidean_division_equations; lia.

Lemma four_digits_value (y : N) :
  (y < 10000)%N ->
  (1000 * (y / 1000 mod 10) + 100 * (y / 100 mod 10)
   + 10 * (y / 10 mod 10) + y mod 10 = y)%N.
Proof. intros Hy. ndiv. Qed.

Lemma two_digits_value (n : N) :
  (n < 100)%N -> (10 * (n / 10 mod 10) + n mod 10 = n)%N.
Proof. intros Hn. ndiv. Qed.

(** ** [strptime] and [strftime] *)

Lemma four_pad4 (y : N) (r : string) :
  (y < 10000)%N -> four (pad4 y +:+ r) = [(y, r)].
Proof.
  intros Hy. unfold pad4, pad2. simpl. unfold four.
  rewrite !is_digit_digit_chr_mod, !digit_val_digit_chr_mod. simpl.
  now rewrite four_digits_value.
Qed.

Lemma match_format_year (rest s : string) (y : N) (acc : datetime) :
  (y < 10000)%N ->
  match_format (String "%" (String "Y" rest)) (pad4 y +:+ s) acc =
  match match_format rest s (store "Y" y acc) with
  | Some here => Some (here ++ [])
  | None => None
  end.
Proof.
  intros Hy. cbn [match_format]. change (Ascii.eqb "%" "%") with true.
  cbv iota. unfold alts. change (Ascii.eqb "Y" "Y") with true. cbv iota.
  rewrite (four_pad4 _ _ Hy). cbn [fold_right].
  destruct (match_format rest s (store "Y" y acc)); reflexivity.
Qed.

Lemma valid_date_bounds (y m d : N) :
  valid_date y m d = true ->
  (1 <= y < 10000 /\ 1 <= m < 13 /\ 1 <= d < 32)%N.
Proof.
  unfold valid_date. intros H.
  repeat (apply andb_prop in H as [H ?]).
  repeat match goal with
         | H : (_ <=? _)%N = true |- _ => apply N.leb_le in H
         end.
  assert (days_in_month y m <= 31)%N.
  { unfold days_in_month.
    repeat match goal with
           | |- context [match ?x with _ => _ end] => destruct x
           end; lia. }
  lia.
Qed.

Ltac nat_cases i tac :=
  first [ exfalso; lia | destruct i as [|i]; [ tac | nat_cases i tac ] ].

Lemma match_format_month_day (m d : N) (acc : datetime) :
  (1 <= m < 13)%N -> (1 <= d < 32)%N ->
  exists more,
    match_format "-%m-%d" ("-" +:+ pad2 m +:+ "-" +:+ pad2 d) acc =
    Some ((store "d" d (store "m" m acc), EmptyString) :: more).
Proof.
  intros [Hm1 Hm2] [Hd1 Hd2]. revert Hd1. revert d Hd2. revert Hm1.
  revert m Hm2. refine (N_cases_below 13 _ _). intros i Hi.
  nat_cases i ltac:(
    intros Hm1; first
      [ exfalso; lia
      | refine (N_cases_below 32 _ _); intros j Hj;
        nat_cases j ltac:(
          intros Hd1; first
            [ exfalso; lia | vm_compute; eexists; reflexivity ]) ]).
Qed.


(** An ISO date is parsed to the date it writes. *)
Lemma strptime_iso (y m d : N) :
  valid_date y m d = true ->
  strptime (iso_date y m d) "%Y-%m-%d" = Return (mkDatetime y m d 0 0 0 0).
Proof.
  intros Hv. destruct (valid_date_bounds _ _ _ Hv) as (Hy & Hm & Hd).
  unfold strptime, iso_date.
  rewrite match_format_year by lia.
  destruct (match_format_month_day m d (store "Y" y strptime_default) Hm Hd)
    as [more ->].
  cbn. now rewrite Hv.
Qed.

Lemma strptime_valid (s fmt : string) (t : datetime) :
  strptime s fmt = Return t -> valid_date (year t) (month t) (day t) = true.
Proof.
  unfold strptime. intros H.
  destruct (match_format fmt s strptime_default) as [[|[t' rest] l]|];
    try discriminate.
  destruct rest; try discriminate.
  destruct (valid_date (year t') (month t') (day t')) eqn:Hv; try discriminate.
  now injection H as <-.
Qed.

Lemma strftime_long (env : Env) (t : datetime) :
  strftime (strftime_pads_year env) "%d %B, %Y" t = long_date env t.
Proof.
  unfold long_date, year_text. cbn. unfold directive_out. cbn.
  now rewrite append_nil_r.
Qed.



(** ** Base64 *)

Section Base64.
Local Open Scope N_scope.

Lemma b64_chr_facts (v : N) :
  v < 64 ->
  b64_table (b64_chr v) = Some v /\
  Ascii.eqb (b64_chr v) "=" = false /\
  Ascii.eqb (b64_chr v) "," = false /\
  is_ascii (b64_chr v) = true.
Proof.
  intros Hv.
  check_below 64%nat
    (fun v => match b64_table (b64_chr v) with
              | Some w => w =? v
              | None => false
              end
              && negb (Ascii.eqb (b64_chr v) "=")
              && negb (Ascii.eqb (b64_chr v) ",")
              && is_ascii (b64_chr v)) Hv H.
  repeat (apply andb_prop in H as [H ?]).
  destruct (b64_table (b64_chr v)) as [w|]; [|discriminate].
  apply N.eqb_eq in H as ->.
  repeat split; try assumption; now apply negb_true_iff.
Qed.

Lemma all_below2_spec (k : nat) (p : N -> N -> bool) :
  all_below k (fun a => all_below k (p a)) = true ->
  forall a b, a < N.of_nat k -> b < N.of_nat k -> p a b = true.
Proof.
  intros H a b Ha Hb.
  pose proof (all_below_spec _ _ H a Ha) as H1. cbv beta in H1.
  exact (all_below_spec _ _ H1 b Hb).
Qed.

Lemma sextet_facts (a b : N) :
  a < 256 -> b < 256 ->
  sextet1 a < 64 /\ sextet2 a b < 64 /\ sextet3 a b < 64 /\ sextet4 a < 64 /\
  u8 (N.lor (N.shiftl (sextet1 a) 2) (N.shiftr (sextet2 a b) 4)) = a /\
  N.land (sextet2 a b) 15 = N.shiftr b 4 /\
  u8 (N.lor (N.shiftl (N.shiftr a 4) 4) (N.shiftr (sextet3 a b) 2)) = a /\
  N.land (sextet3 a b) 3 = N.shiftr b 6 /\
  u8 (N.lor (N.shiftl (N.shiftr a 6) 6) (sextet4 a)) = a.
Proof.
  intros Ha Hb.
  pose proof (all_below2_spec 256
    (fun a b =>
       (sextet1 a <? 64) && (sextet2 a b <? 64) && (sextet3 a b <? 64)
       && (sextet4 a <? 64)
       && (u8 (N.lor (N.shiftl (sextet1 a) 2) (N.shiftr (sextet2 a b) 4)) =? a)
       && (N.land (sextet2 a b) 15 =? N.shiftr b 4)
       && (u8 (N.lor (N.shiftl (N.shiftr a 4) 4) (N.shiftr (sextet3 a b) 2)) =? a)
       && (N.land (sextet3 a b) 3 =? N.shiftr b 6)
       && (u8 (N.lor (N.shiftl (N.shiftr a 6) 6) (sextet4 a)) =? a))
    ltac:(vm_compute; reflexivity) a b Ha Hb) as H.
  cbv beta in H.
  repeat (apply andb_prop in H as [H ?]).
  repeat match goal with
         | H : (_ <? _) = true |- _ => apply N.ltb_lt in H
         | H : (_ =? _) = true |- _ => apply N.eqb_eq in H
         end.
  repeat split; assumption.
Qed.

(** One step of the decoder on a character of the alphabet. *)
Lemma a2b_loop_alphabet (v : N) (r : string) (quad_pos leftchar pads : N)
  (out : list N) :
  v < 64 ->
  a2b_loop (String (b64_chr v) r) quad_pos leftchar pads out =
  match quad_pos with
  | 0 => a2b_loop r 1 v 0 out
  | 1 =>
      a2b_loop r 2 (N.land v 15) 0
        (out ++ [u8 (N.lor (N.shiftl leftchar 2) (N.shiftr v 4))])
  | 2 =>
      a2b_loop r 3 (N.land v 3) 0
        (out ++ [u8 (N.lor (N.shiftl leftchar 4) (N.shiftr v 2))])
  | _ => a2b_loop r 0 0 0 (out ++ [u8 (N.lor (N.shiftl leftchar 6) v)])
  end.
Proof.
  intros Hv. destruct (b64_chr_facts v Hv) as (Ht & He & _ & _).
  cbn [a2b_loop]. rewrite He, Ht. reflexivity.
Qed.

(** Decoding a full group of four characters yields its three bytes. *)
Lemma a2b_loop_group (a b c : N) (r : string) (out : list N) :
  a < 256 -> b < 256 -> c < 256 ->
  a2b_loop
    (String (b64_chr (sextet1 a))
       (String (b64_chr (sextet2 a b))
          (String (b64_chr (sextet3 b c))
             (String (b64_chr (sextet4 c)) r)))) 0 0 0 out
  = a2b_loop r 0 0 0 (out ++ [a; b; c]).
Proof.
  intros Ha Hb Hc.
  destruct (sextet_facts a b Ha Hb) as (A1 & A2 & _ & _ & A5 & A6 & _).
  destruct (sextet_facts b c Hb Hc) as (_ & _ & B3 & _ & _ & _ & B7 & B8 & _).
  destruct (sextet_facts c c Hc Hc) as (_ & _ & _ & C4 & _ & _ & _ & _ & C9).
  rewrite !a2b_loop_alphabet by assumption.
  rewrite A5, A6, B7, B8, C9.
  now rewrite <- !app_assoc.
Qed.

Lemma list_ind3 {A} (P : list A -> Prop) :
  P [] -> (forall a, P [a]) -> (forall a b, P [a; b]) ->
  (forall a b c r, P r -> P (a :: b :: c :: r)) ->
  forall l, P l.
Proof.
  intros H0 H1 H2 H3 l.
  assert (H : P l /\ (forall a, P (a :: l)) /\ (forall a b, P (a :: b :: l))).
  { induction l as [|x l (IH0 & IH1 & IH2)]; [now auto|].
    repeat split; auto. }
  exact (proj1 H).
Qed.

Lemma a2b_loop_encode (bs : list N) :
  is_bytes bs ->
  forall out, a2b_loop (b64encode bs) 0 0 0 out = Return (out ++ bs).
Proof.
  induction bs as [|a|a b|a b c r IH] using list_ind3; intros Hb out.
  - cbn. now rewrite app_nil_r.
  - inversion_clear Hb as [|? ? Ha _].
    destruct (sextet_facts a 0 Ha ltac:(lia)) as (A1 & A2 & _ & _ & A5 & _).
    cbn [b64encode].
    replace (N.shiftl (N.land a 3) 4) with (sextet2 a 0)
      by (unfold sextet2; now rewrite N.shiftr_0_l, N.lor_0_r).
    fold (sextet1 a).
    rewrite !a2b_loop_alphabet by assumption.
    rewrite A5. reflexivity.
  - inversion_clear Hb as [|? ? Ha Hb']. inversion_clear Hb' as [|? ? Hb _].
    destruct (sextet_facts a b Ha Hb) as (A1 & A2 & _ & _ & A5 & A6 & _).
    destruct (sextet_facts b 0 Hb ltac:(lia)) as (_ & _ & B3 & _ & _ & _ & B7 & _).
    cbn [b64encode].
    replace (N.shiftl (N.land b 15) 2) with (sextet3 b 0)
      by (unfold sextet3; now rewrite N.shiftr_0_l, N.lor_0_r).
    fold (sextet1 a). fold (sextet2 a b).
    rewrite !a2b_loop_alphabet by assumption.
    rewrite A5, A6, B7. cbn. now rewrite <- app_assoc.
  - inversion_clear Hb as [|? ? Ha Hb']. inversion_clear Hb' as [|? ? Hb Hb''].
    inversion_clear Hb'' as [|? ? Hc Hr].
    cbn [b64encode]. fold (sextet1 a) (sextet2 a b) (sextet3 b c) (sextet4 c).
    rewrite a2b_loop_group by assumption.
    rewrite (IH Hr). now rewrite <- app_assoc.
Qed.

Lemma b64encode_chars (bs : list N) :
  is_bytes bs ->
  forallb is_ascii (chars (b64encode bs)) = true /\
  contains "," (b64encode bs) = false.
Proof.
  induction bs as [|a|a b|a b c r IH] using list_ind3; intros Hb.
  - split; reflexivity.
  - inversion_clear Hb as [|? ? Ha _].
    destruct (sextet_facts a 0 Ha ltac:(lia)) as (A1 & A2 & _).
    cbn [b64encode].
    replace (N.shiftl (N.land a 3) 4) with (sextet2 a 0)
      by (unfold sextet2; now rewrite N.shiftr_0_l, N.lor_0_r).
    fold (sextet1 a).
    destruct (b64_chr_facts _ A1) as (_ & _ & X1 & Y1).
    destruct (b64_chr_facts _ A2) as (_ & _ & X2 & Y2).
    cbn. rewrite X1, X2, Y1, Y2. split; reflexivity.
  - inversion_clear Hb as [|? ? Ha Hb']. inversion_clear Hb' as [|? ? Hb _].
    destruct (sextet_facts a b Ha Hb) as (A1 & A2 & _).
    destruct (sextet_facts b 0 Hb ltac:(lia)) as (_ & _ & B3 & _).
    cbn [b64encode].
    replace (N.shiftl (N.land b 15) 2) with (sextet3 b 0)
      by (unfold sextet3; now rewrite N.shiftr_0_l, N.lor_0_r).
    fold (sextet1 a). fold (sextet2 a b).
    destruct (b64_chr_facts _ A1) as (_ & _ & X1 & Y1).
    destruct (b64_chr_facts _ A2) as (_ & _ & X2 & Y2).
    destruct (b64_chr_facts _ B3) as (_ & _ & X3 & Y3).
    cbn. rewrite X1, X2, X3, Y1, Y2, Y3. split; reflexivity.
  - inversion_clear Hb as [|? ? Ha Hb']. inversion_clear Hb' as [|? ? Hb Hb''].
    inversion_clear Hb'' as [|? ? Hc Hr].
    destruct (IH Hr) as [IH1 IH2].
    destruct (sextet_facts a b Ha Hb) as (A1 & A2 & _).
    destruct (sextet_facts b c Hb Hc) as (_ & _ & B3 & _).
    destruct (sextet_facts c c Hc Hc) as (_ & _ & _ & C4 & _).
    cbn [b64encode]. fold (sextet1 a) (sextet2 a b) (sextet3 b c) (sextet4 c).
    destruct (b64_chr_facts _ A1) as (_ & _ & X1 & Y1).
    destruct (b64_chr_facts _ A2) as (_ & _ & X2 & Y2).
    destruct (b64_chr_facts _ B3) as (_ & _ & X3 & Y3).
    destruct (b64_chr_facts _ C4) as (_ & _ & X4 & Y4).
    cbn [chars forallb contains]. rewrite X1, X2, X3, X4, Y1, Y2, Y3, Y4.
    split; assumption.
Qed.

(** Decoding undoes encoding. *)
Lemma b64decode_b64encode (bs : list N) :
  is_bytes bs -> b64decode (b64encode bs) = Return bs.
Proof.
  intros Hb. unfold b64decode, a2b_base64.
  rewrite (proj1 (b64encode_chars bs Hb)).
  now rewrite a2b_loop_encode.
Qed.

End Base64.

(** ** Validation *)

Lemma errors_elem (rs : list ((string * string) + string)) (e : string * string) :
  In (inl e) rs -> In e (Pydantic.errors rs).
Proof.
  intros H. unfold Pydantic.errors. apply list_elem_of_In.
  apply list_elem_of_omap. exists (inl e). split; [|reflexivity].
  now apply list_elem_of_In.
Qed.

(** Case analysis on the eleven fields, first to last; [leaf] closes the
    branch in which some field was refused and [ok] the one in which all
    were accepted. *)
Ltac field_cases f leaf ok :=
  let go name k :=
    destruct (f name) eqn:?; [solve [leaf]|k] in
  go "date" ltac:(go "designation" ltac:(go "joiningDate" ltac:(
  go "nationality" ltac:(go "passportNumber" ltac:(go "issueLocation" ltac:(
  go "issueDate" ltac:(go "expiryDate" ltac:(go "employeeName" ltac:(
  go "employeeCode" ltac:(go "signature" ltac:(ok))))))))))).

Ltac in_names H :=
  repeat (destruct H as [H|H]; [subst|]); [..|destruct H].

Section Validation.
Variable env : Env.
Variable kw : list (string * JValue).
Let f := Pydantic.field env kw.

Lemma PassportDeclaration_init_raises (name : string) (e : string * string) :
  In name Pydantic.field_names -> f name = inl e ->
  Main.PassportDeclaration_init env kw =
    Raise (ValidationError "PassportDeclaration"
             (Pydantic.errors (map f Pydantic.field_names))).
Proof.
  intros Hin He. unfold Main.PassportDeclaration_init. fold f.
  unfold Pydantic.field_names. cbn [map].
  field_cases f ltac:(reflexivity) ltac:(in_names Hin; congruence).
Qed.

Lemma PassportDeclaration_init_returns (declaration : Main.PassportDeclaration) :
  Main.PassportDeclaration_init env kw = Return declaration ->
  map f Pydantic.field_names = map (fun kv => inr (snd kv)) (Main.items declaration).
Proof.
  unfold Main.PassportDeclaration_init. fold f.
  unfold Pydantic.field_names. cbn [map]. intros H.
  field_cases f ltac:(discriminate H)
    ltac:(injection H as <-; reflexivity).
Qed.

Lemma PassportDeclaration_init_accepts :
  (forall name, In name Pydantic.field_names -> exists s, f name = inr s) ->
  exists declaration, Main.PassportDeclaration_init env kw = Return declaration.
Proof.
  intros H. unfold Main.PassportDeclaration_init. fold f.
  field_cases f
    ltac:(idtac; match goal with
          | E : f ?n = inl _ |- _ =>
              assert (In n Pydantic.field_names) as Hn by (cbn; tauto);
              destruct (H n Hn) as [? ?]; congruence
          end)
    ltac:(eexists; reflexivity).
Qed.

Lemma PassportForm_init_raises (name : string) (e : string * string) :
  In name Pydantic.field_names -> f name = inl e ->
  Passport.PassportForm_init env kw =
    Raise (ValidationError "PassportForm"
             (Pydantic.errors (map f Pydantic.field_names))).
Proof.
  intros Hin He. unfold Passport.PassportForm_init. fold f.
  unfold Pydantic.field_names. cbn [map].
  field_cases f ltac:(reflexivity) ltac:(in_names Hin; congruence).
Qed.

Lemma PassportForm_init_returns (form : Passport.PassportForm) :
  Passport.PassportForm_init env kw = Return form ->
  map f Pydantic.field_names = map (fun kv => inr (snd kv)) (Passport.items form).
Proof.
  unfold Passport.PassportForm_init. fold f.
  unfold Pydantic.field_names. cbn [map]. intros H.
  field_cases f ltac:(discriminate H)
    ltac:(injection H as <-; reflexivity).
Qed.

Lemma PassportForm_init_accepts :
  (forall name, In name Pydantic.field_names -> exists s, f name = inr s) ->
  exists form, Passport.PassportForm_init env kw = Return form.
Proof.
  intros H. unfold Passport.PassportForm_init. fold f.
  field_cases f
    ltac:(idtac; match goal with
          | E : f ?n = inl _ |- _ =>
              assert (In n Pydantic.field_names) as Hn by (cbn; tauto);
              destruct (H n Hn) as [? ?]; congruence
          end)
    ltac:(eexists; reflexivity).
Qed.

End Validation.

Lemma field_accepted (env : Env) (kw : list (string * JValue)) (name s : string) :
  Pydantic.field env kw name = inr s ->
  exists v, dict_get name kw = Some v /\ Pydantic.validate_str env v = Some s.
Proof.
  unfold Pydantic.field. intros H.
  destruct (dict_get name kw) as [v|]; [|discriminate].
  destruct (Pydantic.validate_str env v) as [s'|] eqn:Hv; [|discriminate].
  injection H as <-. now exists v.
Qed.

Lemma field_of_str (env : Env) (kw : list (string * JValue)) (name s : string) :
  dict_get name kw = Some (JStr s) -> Pydantic.field env kw name = inr s.
Proof. unfold Pydantic.field. now intros ->. Qed.

(** C1 (amended): when the validator accepts a body, each of the eleven
    fields is present in the body and the record holds what the [str]
    validator made of it (a string is kept as it is); there is no test on
    the length, so a body whose eleven fields are strings, empty or not,
    is always accepted. *)
Theorem C1_accepted_fields_present (env : Env) (kw : list (string * JValue)) :
  (forall declaration,
     Main.PassportDeclaration_init env kw = Return declaration ->
     map fst (Main.items declaration) = Pydantic.field_names /\
     Forall (validated env kw) (Main.items declaration)) /\
  (forall form,
     Passport.PassportForm_init env kw = Return form ->
     map fst (Passport.items form) = Pydantic.field_names /\
     Forall (validated env kw) (Passport.items form)) /\
  ((forall name, In name Pydantic.field_names ->
      exists s, dict_get name kw = Some (JStr s)) ->
   (exists declaration, Main.PassportDeclaration_init env kw = Return declaration) /\
   (exists form, Passport.PassportForm_init env kw = Return form)).
Proof.
  split; [|split].
  - intros d H. split; [reflexivity|].
    apply PassportDeclaration_init_returns in H.
    unfold Pydantic.field_names, Main.items in H. cbn [map snd] in H.
    unfold Main.items.
    repeat (constructor;
            [unfold validated; cbn [fst snd]; apply field_accepted; congruence|]).
    constructor.
  - intros d H. split; [reflexivity|].
    apply PassportForm_init_returns in H.
    unfold Pydantic.field_names, Passport.items in H. cbn [map snd] in H.
    unfold Passport.items.
    repeat (constructor;
            [unfold validated; cbn [fst snd]; apply field_accepted; congruence|]).
    constructor.
  - intros H.
    assert (Hf : forall name, In name Pydantic.field_names ->
                   exists s, Pydantic.field env kw name = inr s).
    { intros name Hin. destruct (H name Hin) as [s Hs].
      exists s. now apply field_of_str. }
    split.
    + now apply PassportDeclaration_init_accepts.
    + now apply PassportForm_init_accepts.
Qed.

Lemma C1_accepted_fields_present_witness :
  Main.PassportDeclaration_init Demo.env Demo.all_empty
    = Return (Main.mkPassportDeclaration "" "" "" "" "" "" "" "" "" "" "") /\
  Forall (validated Demo.env Demo.all_empty)
    (Main.items (Main.mkPassportDeclaration "" "" "" "" "" "" "" "" "" "" "")).
Proof.
  split; [reflexivity|].
  exact (proj2 (proj1 (C1_accepted_fields_present Demo.env Demo.all_empty)
                  _ eq_refl)).
Defined.

(** C1, as stated, fails: a body whose designation is the empty string
    is accepted by both validators, and both handlers go on to render and
    store the document. *)
Lemma C1_empty_string_accepted :
  dict_get "designation" Demo.body_empty_designation = Some (JStr "") /\
  Main.PassportDeclaration_init Demo.env Demo.body_empty_designation
    = Return (Main.mkPassportDeclaration "2024-03-05" "" "2023-11-20"
                "Pakistani" "AB1234567" "Dubai" "2020-01-15" "2030-01-14"
                "A. Khan" "E123" "data:image/png;base64,aGVsbG8=") /\
  Passport.PassportForm_init Demo.env Demo.body_empty_designation
    = Return (Passport.mkPassportForm "2024-03-05" "" "2023-11-20"
                "Pakistani" "AB1234567" "Dubai" "2020-01-15" "2030-01-14"
                "A. Khan" "E123" "data:image/png;base64,aGVsbG8=") /\
  status (fst (Main.serve
                 (Main.submit_passport_declaration Demo.env Demo.now 255
                    (Return (JObj Demo.body_empty_designation))) ∅)) = 200%nat /\
  snd (Main.submit_passport_declaration Demo.env Demo.now 255
         (Return (JObj Demo.body_empty_designation)) ∅)
    !! "pdf_files/passport_declaration_E123_00000000.pdf"
    = Some (FS.File Demo.pdf_magic) /\
  snd (Passport.post_api_passport Demo.env Demo.now
         (JObj Demo.body_empty_designation) ∅)
    !! "pdf_output/passport_E123_20240305070809.pdf"
    = Some (FS.File (Demo.pdf_magic ++ [104; 101; 108; 108; 111]%N)).
Proof. repeat split; vm_compute; reflexivity. Qed.

(** ** The signature *)

Lemma split_go_prefix (sep : ascii) (p q : string) (cur : list ascii) :
  contains sep p = false ->
  split_go sep (p +:+ String sep q) cur
  = (of_chars (rev cur) +:+ p) :: split_go sep q [].
Proof.
  revert cur. induction p as [|c p IH]; intros cur H; simpl in *.
  - rewrite Ascii.eqb_refl. now rewrite append_nil_r.
  - apply orb_false_elim in H as [Hc Hp]. rewrite Hc.
    rewrite (IH _ Hp). cbn [rev]. rewrite of_chars_app, append_assoc.
    reflexivity.
Qed.

(** What stands between the first comma and the next one, if any, is
    what gets decoded. *)
Lemma signature_bytes_second_piece (p q : string) :
  contains "," p = false -> contains "," q = false ->
  Passport.signature_bytes (p +:+ "," +:+ q) = b64decode q.
Proof.
  intros Hp Hq. unfold Passport.signature_bytes, split.
  change ("," +:+ q) with (String "," q).
  rewrite (split_go_prefix _ _ _ _ Hp), (split_go_no_sep _ _ _ Hq).
  reflexivity.
Qed.

(** C3: for a signature [data:image/png;base64,<payload>] whose payload
    has no comma, the handler decodes exactly the payload; when the
    payload is the Base64 encoding of some bytes, the result is those
    bytes and nothing is raised; a signature without a comma always fails
    with the same error ([IndexError], from taking the second piece), which
    the handler, once the paragraphs before the signature are built,
    reports as a 500 response, leaving the store as it was. *)
Theorem C3_signature_decoding :
  (forall payload, contains "," payload = false ->
     Passport.signature_bytes (data_uri payload) = b64decode payload) /\
  (forall bs, is_bytes bs ->
     Passport.signature_bytes (data_uri (b64encode bs)) = Return bs) /\
  (forall signature, contains "," signature = false ->
     Passport.signature_bytes signature = Raise IndexError) /\
  (forall env now form fs head,
     Passport.story_head env form = Return head ->
     contains "," (Passport.signature form) = false ->
     Passport.create_passport env now form fs
     = (JSONResponse 500 (JObj [("error", JStr "list index out of range")]), fs)).
Proof.
  assert (H1 : forall payload, contains "," payload = false ->
             Passport.signature_bytes (data_uri payload) = b64decode payload).
  { intros payload H. unfold data_uri.
    change "data:image/png;base64,"
      with ("data:image/png;base64" +:+ ",").
    rewrite append_assoc.
    now apply signature_bytes_second_piece. }
  assert (H3 : forall signature, contains "," signature = false ->
             Passport.signature_bytes signature = Raise IndexError).
  { intros signature H. unfold Passport.signature_bytes.
    now rewrite (split_no_sep _ _ H). }
  split; [exact H1|split; [|split; [exact H3|]]].
  - intros bs Hb. rewrite H1 by apply (b64encode_chars bs Hb).
    now apply b64decode_b64encode.
  - intros env now form fs head Hh H.
    unfold Passport.create_passport, Passport.story_of.
    now rewrite Hh, (H3 _ H).
Qed.

Lemma C3_signature_decoding_witness :
  (contains "," "aGVsbG8=" = false /\
   Passport.signature_bytes "data:image/png;base64,aGVsbG8="
     = Return [104; 101; 108; 108; 111]%N) /\
  (contains "," "aGVsbG8=" = false /\
   Passport.signature_bytes "aGVsbG8=" = Raise IndexError) /\
  (contains "," (Passport.signature Demo.form_bad_signature) = false /\
   Passport.create_passport Demo.env Demo.now Demo.form_bad_signature ∅
   = (JSONResponse 500 (JObj [("error", JStr "list index out of range")]), ∅)).
Proof.
  split; [|split]; (split; [reflexivity|]).
  - exact (proj1 C3_signature_decoding "aGVsbG8=" eq_refl).
  - exact (proj1 (proj2 (proj2 C3_signature_decoding)) "aGVsbG8=" eq_refl).
  - exact (proj2 (proj2 (proj2 C3_signature_decoding))
             Demo.env Demo.now Demo.form_bad_signature ∅ _ eq_refl eq_refl).
Defined.

(** ** Failed submissions *)

Lemma submit_validation_failure (env : Env) (now : datetime) (uuid4 : N)
  (kw : list (string * JValue)) (fs : FS.t) (e : Exn) :
  Main.PassportDeclaration_init env kw = Raise e ->
  Main.submit_passport_declaration env now uuid4 (Return (JObj kw)) fs
  = (Raise (HTTPException 500 ("Error generating PDF: " +:+ exn_str env e)), fs).
Proof.
  intros H. unfold Main.submit_passport_declaration, Main.submit_body.
  now rewrite H.
Qed.

Lemma field_refused (env : Env) (kw : list (string * JValue)) (name : string) :
  refused env kw name ->
  exists kind, Pydantic.field env kw name = inl (name, kind).
Proof.
  unfold Pydantic.field. intros [H|(v & H & Hv)]; rewrite H.
  - now exists "missing".
  - rewrite Hv. now exists "string_type".
Qed.

(** C6 (amended): when a field of the model is missing from the body or
    has a value the [str] validator refuses, validation raises a
    [ValidationError] whose error list names that field; the template
    variant's handler turns it into a response of status 500, not a client
    error, whose detail is [Error generating PDF: ] followed by the text of
    that error, and leaves the store as it was. *)
Theorem C6_validation_error_is_500 (env : Env) (now : datetime) (uuid4 : N)
  (kw : list (string * JValue)) (fs : FS.t) (name : string) :
  In name Pydantic.field_names ->
  refused env kw name ->
  exists errors kind,
    Main.PassportDeclaration_init env kw
      = Raise (ValidationError "PassportDeclaration" errors) /\
    In (name, kind) errors /\
    Main.serve
      (Main.submit_passport_declaration env now uuid4 (Return (JObj kw))) fs
    = (mkReply 500 "application/json" None
         (Json (JObj [("detail",
                       JStr ("Error generating PDF: "
                               +:+ exn_str env
                                     (ValidationError "PassportDeclaration"
                                        errors)))])),
       fs).
Proof.
  intros Hin Href. destruct (field_refused _ _ _ Href) as [kind Hk].
  pose proof (PassportDeclaration_init_raises env kw name _ Hin Hk) as Hinit.
  eexists. exists kind. split; [exact Hinit|]. split.
  - apply errors_elem. rewrite <- Hk. now apply in_map.
  - unfold Main.serve.
    rewrite (submit_validation_failure _ _ _ _ _ _ Hinit). reflexivity.
Qed.

Lemma C6_validation_error_is_500_witness :
  In "date" Pydantic.field_names /\
  refused Demo.env Demo.body_missing_date "date" /\
  exists errors kind,
    Main.PassportDeclaration_init Demo.env Demo.body_missing_date
      = Raise (ValidationError "PassportDeclaration" errors) /\
    In ("date", kind) errors /\
    Main.serve
      (Main.submit_passport_declaration Demo.env Demo.now 255
         (Return (JObj Demo.body_missing_date))) ∅
    = (mkReply 500 "application/json" None
         (Json (JObj [("detail",
                       JStr ("Error generating PDF: "
                               +:+ exn_str Demo.env
                                     (ValidationError "PassportDeclaration"
                                        errors)))])),
       ∅).
Proof.
  assert (Hin : In "date" Pydantic.field_names) by (cbn; tauto).
  assert (Href : refused Demo.env Demo.body_missing_date "date")
    by (left; reflexivity).
  split; [exact Hin|split; [exact Href|]].
  exact (C6_validation_error_is_500 Demo.env Demo.now 255
           Demo.body_missing_date ∅ "date" Hin Href).
Defined.

(** C6, as stated, fails: a body without its [date] field is answered
    with status 500, which is not a client error. *)
Lemma C6_missing_field_not_client_error :
  let reply :=
    fst (Main.serve
           (Main.submit_passport_declaration Demo.env Demo.now 255
              (Return (JObj Demo.body_missing_date))) ∅) in
  dict_get "date" Demo.body_missing_date = None /\
  status reply = 500%nat /\
  ~ (400 <= status reply < 500)%nat.
Proof.
  cbv zeta.
  assert (H : status (fst (Main.serve
             (Main.submit_passport_declaration Demo.env Demo.now 255
                (Return (JObj Demo.body_missing_date))) ∅)) = 500%nat)
    by (vm_compute; reflexivity).
  split; [reflexivity|]. split; [exact H|]. rewrite H. lia.
Qed.

Lemma open_wb_inserts (env : Env) (fs fs1 : FS.t) (path : string) :
  open_wb env fs path = Return fs1 -> fs1 = <[path := FS.File []]> fs.
Proof.
  unfold open_wb. intros H.
  destruct (fs !! path) as [[bs|]|]; try discriminate;
    destruct (os_can_write env path); try discriminate;
    now injection H as <-.
Qed.

Lemma open_wb_free (env : Env) (fs : FS.t) (path : string) :
  fs !! path = None -> os_can_write env path = true ->
  open_wb env fs path = Return (<[path := FS.File []]> fs).
Proof. intros Hl Hw. unfold open_wb. now rewrite Hl, Hw. Qed.

(** C2 (amended): a submission that fails validation is answered with
    an error and leaves the store unchanged, in both variants; in the
    structured-layout variant the store is also unchanged when building
    the story raises (for instance on the signature) or when the build
    raises before it saves.  In the template variant the output file is
    opened before the engine runs: when the engine then reports an error
    or raises, the reply is a 500 error and the store holds a file at the
    generated path, with the bytes the engine wrote. *)
Theorem C2_failures_and_the_store (env : Env) (now : datetime) (uuid4 : N)
  (fs : FS.t) :
  (forall kw e,
     Main.PassportDeclaration_init env kw = Raise e ->
     Main.serve
       (Main.submit_passport_declaration env now uuid4 (Return (JObj kw))) fs
     = (error_reply env e, fs)) /\
  (forall kw e,
     Passport.PassportForm_init env kw = Raise e ->
     exists content,
       Passport.post_api_passport env now (JObj kw) fs
       = (JSONResponse 422 content, fs)) /\
  (forall form e,
     Passport.story_of env form = Raise e ->
     Passport.create_passport env now form fs
     = (Passport.error_response env e, fs)) /\
  (forall form story e,
     Passport.story_of env form = Return story ->
     reportlab_build env story = BuildRaised e None ->
     Passport.create_passport env now form fs
     = (Passport.error_response env e, fs)) /\
  (forall kw declaration fs1 written,
     Main.PassportDeclaration_init env kw = Return declaration ->
     open_wb env fs (filepath_of uuid4 declaration) = Return fs1 ->
     (xhtml2pdf_CreatePDF env (Main.generate_pdf_html env now declaration)
        = PisaReturned written true \/
      exists e,
        xhtml2pdf_CreatePDF env (Main.generate_pdf_html env now declaration)
          = PisaRaised written e) ->
     exists e,
       Main.serve
         (Main.submit_passport_declaration env now uuid4 (Return (JObj kw))) fs
       = (error_reply env e,
          <[filepath_of uuid4 declaration := FS.File written]> fs)).
Proof.
  split; [|split; [|split; [|split]]].
  - intros kw e H. unfold Main.serve.
    now rewrite (submit_validation_failure _ _ _ _ _ _ H).
  - intros kw e H. unfold Passport.post_api_passport. rewrite H. now eexists.
  - intros form e H. unfold Passport.create_passport. now rewrite H.
  - intros form story e Hs Hb.
    unfold Passport.create_passport, Passport.build. now rewrite Hs, Hb.
  - intros kw declaration fs1 written Hinit Hopen Hpisa.
    pose proof (open_wb_inserts _ _ _ _ Hopen) as ->.
    unfold Main.serve, Main.submit_passport_declaration, Main.submit_body,
      Main.write_pdf.
    rewrite Hinit. fold (filepath_of uuid4 declaration). rewrite Hopen.
    destruct Hpisa as [Hp|[e Hp]]; rewrite Hp, insert_insert_eq.
    + now eexists.
    + now exists e.
Qed.

Lemma C2_failures_and_the_store_witness :
  (Main.PassportDeclaration_init Demo.env Demo.body_missing_date
     = Raise (ValidationError "PassportDeclaration" [("date", "missing")]) /\
   snd (Main.serve
          (Main.submit_passport_declaration Demo.env Demo.now 255
             (Return (JObj Demo.body_missing_date))) ∅) = ∅) /\
  (Passport.story_of Demo.env Demo.form_bad_signature = Raise IndexError /\
   snd (Passport.create_passport Demo.env Demo.now Demo.form_bad_signature ∅)
     = ∅) /\
  (Main.PassportDeclaration_init Demo.env_failing Demo.body
     = Return Demo.declaration /\
   open_wb Demo.env_failing ∅ (filepath_of 255 Demo.declaration)
     = Return (<[filepath_of 255 Demo.declaration := FS.File []]> ∅) /\
   exists e,
     Main.serve
       (Main.submit_passport_declaration Demo.env_failing Demo.now 255
          (Return (JObj Demo.body))) ∅
     = (error_reply Demo.env_failing e,
        <[filepath_of 255 Demo.declaration := FS.File [37]%N]> ∅)).
Proof.
  split; [|split].
  - split; [reflexivity|].
    exact (f_equal snd
             (proj1 (C2_failures_and_the_store Demo.env Demo.now 255 ∅)
                Demo.body_missing_date _ eq_refl)).
  - split; [reflexivity|].
    exact (f_equal snd
             (proj1 (proj2 (proj2
                (C2_failures_and_the_store Demo.env Demo.now 255 ∅)))
                Demo.form_bad_signature IndexError eq_refl)).
  - assert (Hinit : Main.PassportDeclaration_init Demo.env_failing Demo.body
                    = Return Demo.declaration) by reflexivity.
    assert (Hopen : open_wb Demo.env_failing ∅ (filepath_of 255 Demo.declaration)
                    = Return (<[filepath_of 255 Demo.declaration := FS.File []]> ∅))
      by (apply open_wb_free; reflexivity).
    split; [exact Hinit|split; [exact Hopen|]].
    exact (proj2 (proj2 (proj2 (proj2
             (C2_failures_and_the_store Demo.env_failing Demo.now 255 ∅))))
             Demo.body Demo.declaration _ [37]%N Hinit Hopen
             (or_introl eq_refl)).
Defined.

(** C2, as stated, fails in the template variant: the engine reports an
    error, the reply is an error, and the store, empty before, now holds
    a file at the generated path. *)
Lemma C2_failed_render_leaves_file :
  let served :=
    Main.serve
      (Main.submit_passport_declaration Demo.env_failing Demo.now 255
         (Return (JObj Demo.body))) ∅ in
  xhtml2pdf_CreatePDF Demo.env_failing
    (Main.generate_pdf_html Demo.env_failing Demo.now Demo.declaration)
    = PisaReturned [37]%N true /\
  status (fst served) = 500%nat /\
  (∅ : FS.t) !! "pdf_files/passport_declaration_E123_00000000.pdf" = None /\
  snd served !! "pdf_files/passport_declaration_E123_00000000.pdf"
    = Some (FS.File [37]%N) /\
  snd served <> ∅.
Proof.
  cbv zeta.
  assert (H : snd (Main.serve
                (Main.submit_passport_declaration Demo.env_failing Demo.now 255
                   (Return (JObj Demo.body))) ∅)
              !! "pdf_files/passport_declaration_E123_00000000.pdf"
              = Some (FS.File [37]%N)) by (vm_compute; reflexivity).
  split; [reflexivity|]. split; [vm_compute; reflexivity|].
  split; [reflexivity|]. split; [exact H|].
  intros Heq. rewrite Heq in H. discriminate H.
Qed.

(** ** File names *)

Lemma timestamp_eq (env : Env) (t : datetime) :
  timestamp env t
  = year_text env (year t) +:+ pad2 (month t) +:+ pad2 (day t)
      +:+ pad2 (hour t) +:+ pad2 (minute t) +:+ pad2 (second t).
Proof.
  unfold timestamp, year_text. cbn. unfold directive_out. cbn.
  reflexivity.
Qed.

Lemma year_text_four_digits (env : Env) (y : N) :
  (1000 <= y)%N -> year_text env y = pad4 y.
Proof.
  intros Hy. unfold year_text, dec.
  destruct (strftime_pads_year env); [reflexivity|].
  destruct (N.ltb_spec y 10); [lia|].
  destruct (N.ltb_spec y 100); [lia|].
  destruct (N.ltb_spec y 1000); [lia|reflexivity].
Qed.

Lemma digit_chr_mod_inj (a b : N) :
  digit_chr (a mod 10) = digit_chr (b mod 10) -> (a mod 10 = b mod 10)%N.
Proof.
  intros H. apply (f_equal digit_val) in H.
  now rewrite !digit_val_digit_chr_mod in H.
Qed.

Lemma valid_datetime_bounds (t : datetime) :
  valid_datetime t = true ->
  (year t < 10000 /\ month t < 13 /\ day t < 32 /\
   hour t < 24 /\ minute t < 60 /\ second t < 60)%N.
Proof.
  unfold valid_datetime, valid_time. intros H.
  apply andb_prop in H as [Hd Ht].
  apply valid_date_bounds in Hd.
  repeat (apply andb_prop in Ht as [Ht ?]).
  repeat match goal with
         | H : (_ <? _)%N = true |- _ => apply N.ltb_lt in H
         end.
  lia.
Qed.

Lemma append_inj_length (a b x y : string) :
  String.length a = String.length b ->
  a +:+ x = b +:+ y -> a = b /\ x = y.
Proof.
  revert b. induction a as [|c a IH]; intros [|d b] Hl H;
    simpl in *; try discriminate.
  - now split.
  - injection H as -> H. injection Hl as Hl.
    destruct (IH b Hl H) as [-> ->]. now split.
Qed.

Lemma pad2_inj (a b : N) :
  (a < 100)%N -> (b < 100)%N -> pad2 a = pad2 b -> a = b.
Proof.
  intros Ha Hb H. unfold pad2 in H. injection H as H1 H2.
  apply digit_chr_mod_inj in H1, H2.
  rewrite <- (two_digits_value a Ha), <- (two_digits_value b Hb).
  now rewrite H1, H2.
Qed.

Lemma pad4_inj (a b : N) :
  (a < 10000)%N -> (b < 10000)%N -> pad4 a = pad4 b -> a = b.
Proof.
  intros Ha Hb H. unfold pad4, pad2 in H. injection H as H1 H2 H3 H4.
  apply digit_chr_mod_inj in H1, H2, H3, H4.
  rewrite <- (four_digits_value a Ha), <- (four_digits_value b Hb).
  now rewrite H1, H2, H3, H4.
Qed.

(** Two valid moments with four-digit years print the same timestamp
    exactly when they fall in the same second. *)
Lemma timestamp_same_second (env : Env) (t1 t2 : datetime) :
  valid_datetime t1 = true -> valid_datetime t2 = true ->
  (1000 <= year t1)%N -> (1000 <= year t2)%N ->
  timestamp env t1 = timestamp env t2 <-> same_second t1 t2.
Proof.
  intros V1 V2 Y1 Y2. rewrite !timestamp_eq.
  rewrite !year_text_four_digits by assumption.
  split.
  - intros H.
    apply valid_datetime_bounds in V1, V2.
    apply append_inj_length in H as [Hy H]; [|reflexivity].
    apply append_inj_length in H as [Hm H]; [|reflexivity].
    apply append_inj_length in H as [Hd H]; [|reflexivity].
    apply append_inj_length in H as [Hh H]; [|reflexivity].
    apply append_inj_length in H as [Hmi Hs]; [|reflexivity].
    apply pad4_inj in Hy; [|lia|lia].
    apply pad2_inj in Hm, Hd, Hh, Hmi, Hs; try lia.
    unfold same_second. tauto.
  - intros (-> & -> & -> & -> & -> & ->). reflexivity.
Qed.

Lemma passport_filename_eq (env : Env) (now1 now2 : datetime)
  (form1 form2 : Passport.PassportForm) :
  Passport.employeeCode form1 = Passport.employeeCode form2 ->
  Passport.filename_of env now1 form1 = Passport.filename_of env now2 form2
  <-> timestamp env now1 = timestamp env now2.
Proof.
  intros Hc. unfold Passport.filename_of. fold (timestamp env now1).
  fold (timestamp env now2). rewrite Hc. split.
  - intros H. do 3 apply append_inv_head in H.
    now apply append_inv_tail in H.
  - now intros ->.
Qed.

Lemma declaration_filename_eq (uuid1 uuid2 : N)
  (d1 d2 : Main.PassportDeclaration) :
  Main.employeeCode d1 = Main.employeeCode d2 ->
  Main.filename_of uuid1 d1 = Main.filename_of uuid2 d2
  <-> hex8 uuid1 = hex8 uuid2.
Proof.
  intros Hc. unfold Main.filename_of. fold (hex8 uuid1). fold (hex8 uuid2).
  rewrite Hc. split.
  - intros H. do 3 apply append_inv_head in H.
    now apply append_inv_tail in H.
  - now intros ->.
Qed.

(** C5 (amended): two submissions with the same employee code get the
    same file name exactly when their uniqueness tokens coincide.  In the
    structured-layout variant the token is the timestamp, which two valid
    moments with four-digit years share exactly when they fall in the same
    second; in the template variant it is the first eight hexadecimal
    digits of the random identifier. *)
Theorem C5_same_name_iff_same_token (env : Env) :
  (forall now1 now2 form1 form2,
     Passport.employeeCode form1 = Passport.employeeCode form2 ->
     valid_datetime now1 = true -> valid_datetime now2 = true ->
     (1000 <= year now1)%N -> (1000 <= year now2)%N ->
     (Passport.filename_of env now1 form1 = Passport.filename_of env now2 form2
      <-> same_second now1 now2)) /\
  (forall uuid1 uuid2 d1 d2,
     Main.employeeCode d1 = Main.employeeCode d2 ->
     (Main.filename_of uuid1 d1 = Main.filename_of uuid2 d2
      <-> hex8 uuid1 = hex8 uuid2)).
Proof.
  split.
  - intros now1 now2 form1 form2 Hc V1 V2 Y1 Y2.
    rewrite (passport_filename_eq env _ _ _ _ Hc).
    now apply timestamp_same_second.
  - intros uuid1 uuid2 d1 d2 Hc. now apply declaration_filename_eq.
Qed.

Lemma C5_same_name_iff_same_token_witness :
  (Passport.employeeCode Demo.form = Passport.employeeCode Demo.form_other /\
   valid_datetime Demo.now = true /\
   valid_datetime Demo.a_little_later = true /\
   (1000 <= year Demo.now)%N /\ (1000 <= year Demo.a_little_later)%N /\
   (Passport.filename_of Demo.env Demo.now Demo.form
      = Passport.filename_of Demo.env Demo.a_little_later Demo.form_other
    <-> same_second Demo.now Demo.a_little_later)) /\
  (Main.employeeCode Demo.declaration = Main.employeeCode Demo.declaration_other /\
   (Main.filename_of Demo.uuid_a Demo.declaration
      = Main.filename_of Demo.uuid_b Demo.declaration_other
    <-> hex8 Demo.uuid_a = hex8 Demo.uuid_b)).
Proof.
  assert (Y1 : (1000 <= year Demo.now)%N) by (cbn; lia).
  assert (Y2 : (1000 <= year Demo.a_little_later)%N) by (cbn; lia).
  split.
  - split; [reflexivity|]. split; [reflexivity|]. split; [reflexivity|].
    split; [exact Y1|]. split; [exact Y2|].
    exact (proj1 (C5_same_name_iff_same_token Demo.env)
             Demo.now Demo.a_little_later Demo.form Demo.form_other
             eq_refl eq_refl eq_refl Y1 Y2).
  - split; [reflexivity|].
    exact (proj2 (C5_same_name_iff_same_token Demo.env)
             Demo.uuid_a Demo.uuid_b Demo.declaration Demo.declaration_other
             eq_refl).
Defined.

(** C5, as stated, fails: two different forms with the same employee
    code, submitted at two different moments of the same second, get the
    same file name in the structured-layout variant, and the document of
    the second replaces that of the first in the store; in the template
    variant two different random identifiers with the same first 32 bits
    give the same name. *)
Lemma C5_distinct_submissions_same_name :
  let path := "pdf_output/passport_E123_20240305070809.pdf" in
  let fs1 := snd (Passport.create_passport Demo.env Demo.now Demo.form ∅) in
  let fs2 :=
    snd (Passport.create_passport Demo.env Demo.a_little_later
           Demo.form_other fs1) in
  Demo.form <> Demo.form_other /\
  Demo.now <> Demo.a_little_later /\
  Passport.employeeCode Demo.form = Passport.employeeCode Demo.form_other /\
  Passport.filename_of Demo.env Demo.now Demo.form
    = Passport.filename_of Demo.env Demo.a_little_later Demo.form_other /\
  fs1 !! path = Some (FS.File (Demo.pdf_magic ++ [104; 101; 108; 108; 111]%N)) /\
  fs2 !! path
    = Some (FS.File (Demo.pdf_magic ++ [104; 101; 108; 108; 111; 33]%N)) /\
  Demo.uuid_a <> Demo.uuid_b /\
  Main.filename_of Demo.uuid_a Demo.declaration
    = Main.filename_of Demo.uuid_b Demo.declaration_other.
Proof.
  cbv zeta.
  split; [discriminate|]. split; [discriminate|].
  split; [reflexivity|]. split; [vm_compute; reflexivity|].
  split; [vm_compute; reflexivity|]. split; [vm_compute; reflexivity|].
  split; [discriminate|]. vm_compute; reflexivity.
Qed.

(** ** Retrieval *)



(** ** Stored names *)

Lemma contains_no_nondigit (c : ascii) (s : string) :
  is_digit c = false -> forallb is_digit (chars s) = true ->
  contains c s = false.
Proof.
  intros Hc. induction s as [|a s IH]; simpl; intros H; [reflexivity|].
  apply andb_prop in H as [Ha Hs]. rewrite (IH Hs), orb_false_r.
  destruct (Ascii.eqb_spec a c) as [->|]; [congruence|reflexivity].
Qed.

Lemma pad2_digits (n : N) : forallb is_digit (chars (pad2 n)) = true.
Proof. cbn. now rewrite !is_digit_digit_chr_mod. Qed.

Lemma pad4_digits (n : N) : forallb is_digit (chars (pad4 n)) = true.
Proof. cbn. now rewrite !is_digit_digit_chr_mod. Qed.

Lemma chars_append (a b : string) : chars (a +:+ b) = chars a ++ chars b.
Proof. induction a as [|c a IH]; simpl; [reflexivity|now rewrite IH]. Qed.

Lemma year_text_digits (env : Env) (y : N) :
  forallb is_digit (chars (year_text env y)) = true.
Proof.
  unfold year_text, dec.
  destruct (strftime_pads_year env); [apply pad4_digits|].
  destruct (N.ltb_spec y 10) as [Hy|_].
  - cbn. now rewrite (proj1 (digit_chr_facts y Hy)).
  - destruct (y <? 100)%N; [apply pad2_digits|].
    destruct (y <? 1000)%N; [|apply pad4_digits].
    cbn. now rewrite !is_digit_digit_chr_mod.
Qed.


Lemma timestamp_length (env : Env) (t : datetime) :
  (1000 <= year t)%N -> String.length (timestamp env t) = 14%nat.
Proof.
  intros Hy. rewrite timestamp_eq, year_text_four_digits by exact Hy.
  reflexivity.
Qed.

Lemma hex_chr_is_hex (n : N) : is_hex (hex_chr (n mod 16)) = true.
Proof.
  assert (Hn : (n mod 16 < N.of_nat 16)%N) by (apply N.mod_lt; lia).
  check_below 16%nat (fun d => is_hex (hex_chr d)) Hn H. exact H.
Qed.

Lemma hex_digits_facts (k : nat) (n : N) (acc : string) :
  String.length (hex_digits k n acc) = (k + String.length acc)%nat /\
  (forallb is_hex (chars acc) = true ->
   forallb is_hex (chars (hex_digits k n acc)) = true).
Proof.
  revert n acc. induction k as [|k IH]; intros n acc; cbn [hex_digits].
  - now split.
  - destruct (IH (n / 16)%N (String (hex_chr (n mod 16)) acc)) as [Hl Hh].
    split.
    + rewrite Hl. simpl. lia.
    + intros Hacc. apply Hh. simpl. now rewrite hex_chr_is_hex.
Qed.

Lemma take_prefix_facts (p : ascii -> bool) (n : nat) (s : string) :
  (n <= String.length s)%nat -> forallb p (chars s) = true ->
  String.length (take_prefix n s) = n /\
  forallb p (chars (take_prefix n s)) = true.
Proof.
  revert s. induction n as [|n IH]; intros s Hn Hp.
  - now split.
  - destruct s as [|c s]; simpl in *; [lia|].
    apply andb_prop in Hp as [Hc Hs].
    destruct (IH s ltac:(lia) Hs) as [Hl Hf].
    rewrite Hl, Hc, Hf. now split.
Qed.

Lemma hex8_facts (uuid4 : N) :
  String.length (hex8 uuid4) = 8%nat /\
  forallb is_hex (chars (hex8 uuid4)) = true.
Proof.
  unfold hex8, uuid_hex.
  destruct (hex_digits_facts 32 uuid4 EmptyString) as [Hl Hh].
  apply take_prefix_facts.
  - rewrite Hl. simpl. lia.
  - now apply Hh.
Qed.



Lemma create_passport_success (env : Env) (now : datetime)
  (form : Passport.PassportForm) (fs fs' : FS.t) (content : JValue) :
  Passport.create_passport env now form fs = (JSONResponse 200 content, fs') ->
  exists story data,
    Passport.story_of env form = Return story /\
    reportlab_build env story = Built data /\
    content
    = JObj [("message", JStr "Form data received and professional PDF generated");
            ("data", Passport.dict form);
            ("pdf_file",
             JStr (pathlib_div Passport.pdf_folder
                     (Passport.filename_of env now form)))] /\
    fs' = <[pathlib_div Passport.pdf_folder (Passport.filename_of env now form)
            := FS.File data]> fs.
Proof.
  unfold Passport.create_passport, Passport.build, Passport.error_response.
  destruct (Passport.story_of env form) as [e|story]; [discriminate|].
  destruct (reportlab_build env story) as [data|e [data|]] eqn:Hb;
    try discriminate;
    destruct (open_wb env fs _) as [e'|fs1] eqn:Hopen; try discriminate.
  intros H. injection H as <- <-. exists story, data.
  apply open_wb_inserts in Hopen as ->.
  rewrite insert_insert_eq. repeat split; assumption || reflexivity.
Qed.

Lemma submit_success (env : Env) (now : datetime) (uuid4 : N)
  (request_json : result Exn JValue) (fs fs' : FS.t) (response : Response) :
  Main.submit_passport_declaration env now uuid4 request_json fs
    = (Return response, fs') ->
  exists kw declaration data,
    request_json = Return (JObj kw) /\
    Main.PassportDeclaration_init env kw = Return declaration /\
    xhtml2pdf_CreatePDF env (Main.generate_pdf_html env now declaration)
      = PisaReturned data false /\
    response
    = JSONResponse 200
        (JObj [("message", JStr "Passport declaration submitted successfully");
               ("pdf_file", JStr (Main.filename_of uuid4 declaration));
               ("download_url",
                JStr ("/download/" +:+ Main.filename_of uuid4 declaration));
               ("view_url",
                JStr ("/view/" +:+ Main.filename_of uuid4 declaration))]) /\
    fs' = <[filepath_of uuid4 declaration := FS.File data]> fs.
Proof.
  unfold Main.submit_passport_declaration, Main.submit_body, Main.write_pdf.
  destruct request_json as [e|[| | | | |kw]]; try discriminate.
  destruct (Main.PassportDeclaration_init env kw) as [e|declaration] eqn:Hinit;
    [discriminate|].
  fold (filepath_of uuid4 declaration).
  destruct (open_wb env fs _) as [e|fs1] eqn:Hopen; [discriminate|].
  destruct (xhtml2pdf_CreatePDF env _) as [data [|]|data e] eqn:Hp;
    try discriminate.
  intros H. injection H as <- <-. exists kw, declaration, data.
  apply open_wb_inserts in Hopen as ->.
  rewrite insert_insert_eq. repeat split; assumption || reflexivity.
Qed.

Lemma create_passport_stores (env : Env) (now : datetime)
  (form : Passport.PassportForm) (fs : FS.t) (story : list Flowable)
  (data : list N) :
  let path := pathlib_div Passport.pdf_folder (Passport.filename_of env now form) in
  Passport.story_of env form = Return story ->
  reportlab_build env story = Built data ->
  fs !! path = None -> os_can_write env path = true ->
  Passport.create_passport env now form fs
  = (JSONResponse 200
       (JObj [("message", JStr "Form data received and professional PDF generated");
              ("data", Passport.dict form);
              ("pdf_file", JStr path)]),
     <[path := FS.File data]> fs).
Proof.
  cbv zeta. intros Hs Hb Hl Hw.
  unfold Passport.create_passport, Passport.build.
  rewrite Hs, Hb, (open_wb_free _ _ _ Hl Hw).
  now rewrite insert_insert_eq.
Qed.

Lemma submit_stores (env : Env) (now : datetime) (uuid4 : N)
  (kw : list (string * JValue)) (declaration : Main.PassportDeclaration)
  (fs : FS.t) (data : list N) :
  Main.PassportDeclaration_init env kw = Return declaration ->
  xhtml2pdf_CreatePDF env (Main.generate_pdf_html env now declaration)
    = PisaReturned data false ->
  fs !! filepath_of uuid4 declaration = None ->
  os_can_write env (filepath_of uuid4 declaration) = true ->
  Main.submit_passport_declaration env now uuid4 (Return (JObj kw)) fs
  = (Return
       (JSONResponse 200
          (JObj [("message", JStr "Passport declaration submitted successfully");
                 ("pdf_file", JStr (Main.filename_of uuid4 declaration));
                 ("download_url",
                  JStr ("/download/" +:+ Main.filename_of uuid4 declaration));
                 ("view_url",
                  JStr ("/view/" +:+ Main.filename_of uuid4 declaration))])),
     <[filepath_of uuid4 declaration := FS.File data]> fs).
Proof.
  intros Hinit Hp Hl Hw.
  unfold Main.submit_passport_declaration, Main.submit_body, Main.write_pdf.
  rewrite Hinit. fold (filepath_of uuid4 declaration).
  rewrite (open_wb_free _ _ _ Hl Hw), Hp.
  now rewrite insert_insert_eq.
Qed.




Lemma PassportForm_items_validated (env : Env) (kw : list (string * JValue))
  (form : Passport.PassportForm) :
  Passport.PassportForm_init env kw = Return form ->
  Forall (validated env kw) (Passport.items form).
Proof.
  intros H. apply PassportForm_init_returns in H.
  unfold Pydantic.field_names, Passport.items in H. cbn [map snd] in H.
  unfold Passport.items.
  repeat (constructor;
          [unfold validated; cbn [fst snd]; apply field_accepted; congruence|]).
  constructor.
Qed.

(** C9 (amended): a successful response of the structured-layout variant
    holds a message, the validated fields of the submitted body under
    [data] and the path of the generated file under [pdf_file]; a
    successful response of the template variant holds a message, the name
    of the generated file under [pdf_file], and [download_url] and
    [view_url], the name prefixed with [/download/] and [/view/]: it does
    not repeat the submitted fields. *)
Theorem C9_success_responses (env : Env) (now : datetime) (uuid4 : N) (fs : FS.t) :
  (forall body content fs',
     Passport.post_api_passport env now body fs = (JSONResponse 200 content, fs') ->
     exists kw form,
       body = JObj kw /\
       Passport.PassportForm_init env kw = Return form /\
       Forall (validated env kw) (Passport.items form) /\
       content
       = JObj [("message",
                JStr "Form data received and professional PDF generated");
               ("data",
                JObj (map (fun kv => (fst kv, JStr (snd kv)))
                        (Passport.items form)));
               ("pdf_file",
                JStr (pathlib_div Passport.pdf_folder
                        (Passport.filename_of env now form)))]) /\
  (forall request_json content fs',
     Main.submit_passport_declaration env now uuid4 request_json fs
       = (Return (JSONResponse 200 content), fs') ->
     exists kw declaration,
       request_json = Return (JObj kw) /\
       Main.PassportDeclaration_init env kw = Return declaration /\
       content
       = JObj [("message", JStr "Passport declaration submitted successfully");
               ("pdf_file", JStr (Main.filename_of uuid4 declaration));
               ("download_url",
                JStr ("/download/" +:+ Main.filename_of uuid4 declaration));
               ("view_url",
                JStr ("/view/" +:+ Main.filename_of uuid4 declaration))]).
Proof.
  split.
  - intros body content fs' H. unfold Passport.post_api_passport in H.
    destruct body as [| | | | |kw]; try discriminate H.
    destruct (Passport.PassportForm_init env kw) as [e|form] eqn:Hinit;
      [discriminate H|].
    apply create_passport_success in H as (story & data & _ & _ & -> & _).
    exists kw, form. split; [reflexivity|]. split; [exact Hinit|].
    split; [now apply PassportForm_items_validated|reflexivity].
  - intros request_json content fs' H.
    apply submit_success in H as (kw & d & data & -> & Hinit & _ & Hr & _).
    injection Hr as ->. exists kw, d.
    split; [reflexivity|]. split; [exact Hinit|reflexivity].
Qed.

Lemma C9_success_responses_witness :
  (exists kw form,
     JObj Demo.body = JObj kw /\
     Passport.PassportForm_init Demo.env kw = Return form /\
     Forall (validated Demo.env kw) (Passport.items form) /\
     response_items
       (fst (Passport.post_api_passport Demo.env Demo.now (JObj Demo.body) ∅))
     = [("message", JStr "Form data received and professional PDF generated");
        ("data",
         JObj (map (fun kv => (fst kv, JStr (snd kv))) (Passport.items form)));
        ("pdf_file",
         JStr (pathlib_div Passport.pdf_folder
                 (Passport.filename_of Demo.env Demo.now form)))]).
Proof.
  pose proof (create_passport_stores Demo.env Demo.now Demo.form ∅ _ _
                eq_refl eq_refl (lookup_empty _) eq_refl) as Hc.
  assert (Hp : Passport.post_api_passport Demo.env Demo.now (JObj Demo.body) ∅
               = Passport.create_passport Demo.env Demo.now Demo.form ∅)
    by reflexivity.
  rewrite <- Hp in Hc.
  destruct (proj1 (C9_success_responses Demo.env Demo.now Demo.uuid_a ∅)
              _ _ _ Hc) as (kw & form & Hkw & Hinit & Hv & Hcontent).
  exists kw, form. split; [exact Hkw|]. split; [exact Hinit|].
  split; [exact Hv|].
  rewrite Hc. cbn [fst response_items].
  exact (f_equal (fun v => match v with JObj l => l | _ => [] end) Hcontent).
Defined.

(** C9, as stated, fails in the template variant: the successful
    response to a full body holds no echo of it. *)
Lemma C9_template_response_without_echo :
  let response :=
    fst (Main.submit_passport_declaration Demo.env Demo.now Demo.uuid_a
           (Return (JObj Demo.body)) ∅) in
  response
  = Return
      (JSONResponse 200
         (JObj [("message", JStr "Passport declaration submitted successfully");
                ("pdf_file", JStr "passport_declaration_E123_3f2a9c1e.pdf");
                ("download_url",
                 JStr "/download/passport_declaration_E123_3f2a9c1e.pdf");
                ("view_url",
                 JStr "/view/passport_declaration_E123_3f2a9c1e.pdf")])) /\
  (forall r, response = Return r ->
     dict_get "data" (response_items r) = None /\
     Forall (fun kv => dict_get (fst kv) (response_items r) = None) Demo.body).
Proof.
  cbv zeta.
  assert (H : fst (Main.submit_passport_declaration Demo.env Demo.now Demo.uuid_a
                     (Return (JObj Demo.body)) ∅)
              = Return
                  (JSONResponse 200
                     (JObj [("message", JStr "Passport declaration submitted successfully");
                            ("pdf_file", JStr "passport_declaration_E123_3f2a9c1e.pdf");
                            ("download_url",
                             JStr "/download/passport_declaration_E123_3f2a9c1e.pdf");
                            ("view_url",
                             JStr "/view/passport_declaration_E123_3f2a9c1e.pdf")])))
    by (vm_compute; reflexivity).
  split; [exact H|].
  intros r Hr. rewrite H in Hr. injection Hr as <-.
  split; [reflexivity|]. unfold Demo.body, Demo.body_with.
  repeat (constructor; [reflexivity|]). constructor.
Qed.

(** ** The download name *)

Lemma display_name_eq (env : Env) (now : datetime) :
  display_name env now
  = "passport_declaration_" +:+ date_text env now +:+ ".pdf".
Proof.
  unfold display_name, date_text, year_text. cbn. unfold directive_out. cbn.
  reflexivity.
Qed.

Lemma date_text_digits (env : Env) (now : datetime) :
  forallb is_digit (chars (date_text env now)) = true.
Proof.
  unfold date_text. rewrite !chars_append, !forallb_app.
  now rewrite year_text_digits, !pad2_digits.
Qed.

Lemma display_name_not_generated (env : Env) (now : datetime) (uuid4 : N)
  (declaration : Main.PassportDeclaration) :
  display_name env now <> Main.filename_of uuid4 declaration.
Proof.
  rewrite display_name_eq. unfold Main.filename_of. intros H.
  apply append_inv_head in H.
  rewrite <- !append_assoc in H. apply append_inv_tail in H.
  pose proof (contains_no_nondigit "_" _ eq_refl (date_text_digits env now)) as Hn.
  rewrite H, !contains_append in Hn. cbn in Hn.
  rewrite orb_true_r in Hn. discriminate Hn.
Qed.

(** C10: a successful download is offered under the name
    [passport_declaration_<YYYYMMDD>.pdf] made of the current date alone,
    whatever file was asked for: downloads on the same day share the name,
    and it is never the name under which the template variant stored a
    document. *)
Theorem C10_download_display_name (env : Env) (now : datetime)
  (filename : string) (fs : FS.t) (bs : list N) :
  fs !! os_path_join Main.pdf_files filename = Some (FS.File bs) ->
  fst (Main.download_pdf env now filename fs)
    = Return (FileResponse (os_path_join Main.pdf_files filename)
                (Some (display_name env now)) "application/pdf") /\
  fst (Main.serve (Main.download_pdf env now filename) fs)
    = mkReply 200 "application/pdf"
        (Some ("attachment; filename=" +:+ dq +:+ display_name env now +:+ dq))
        (Bytes bs) /\
  display_name env now
    = "passport_declaration_" +:+ year_text env (year now)
        +:+ pad2 (month now) +:+ pad2 (day now) +:+ ".pdf" /\
  (forall later,
     year later = year now -> month later = month now -> day later = day now ->
     display_name env later = display_name env now) /\
  (forall uuid4 declaration,
     display_name env now <> Main.filename_of uuid4 declaration).
Proof.
  intros Hl.
  assert (H1 : fst (Main.download_pdf env now filename fs)
               = Return (FileResponse (os_path_join Main.pdf_files filename)
                           (Some (display_name env now)) "application/pdf")).
  { unfold Main.download_pdf, FS.exists_. now rewrite Hl. }
  split; [exact H1|]. split; [|split; [|split]].
  - unfold Main.serve.
    destruct (Main.download_pdf env now filename fs) as [r fs'] eqn:Hd.
    assert (fs' = fs) as ->.
    { unfold Main.download_pdf in Hd.
      destruct (negb _) in Hd; now injection Hd as _ <-. }
    cbn [fst] in *. rewrite H1.
    unfold FastAPI.send, FastAPI.respond, FS.read_file. now rewrite Hl.
  - rewrite display_name_eq. unfold date_text.
    now rewrite !append_assoc.
  - intros later Hy Hm Hd. rewrite !display_name_eq. unfold date_text.
    now rewrite Hy, Hm, Hd.
  - intros uuid4 declaration. apply display_name_not_generated.
Qed.

Lemma C10_download_display_name_witness :
  let fs : FS.t := {["pdf_files/a.pdf" := FS.File Demo.pdf_magic]} in
  fs !! os_path_join Main.pdf_files "a.pdf" = Some (FS.File Demo.pdf_magic) /\
  fst (Main.serve (Main.download_pdf Demo.env Demo.now "a.pdf") fs)
    = mkReply 200 "application/pdf"
        (Some ("attachment; filename=" +:+ dq
                 +:+ "passport_declaration_20240305.pdf" +:+ dq))
        (Bytes Demo.pdf_magic).
Proof.
  cbv zeta.
  assert (Ha : ({["pdf_files/a.pdf" := FS.File Demo.pdf_magic]} : FS.t)
                 !! os_path_join Main.pdf_files "a.pdf"
               = Some (FS.File Demo.pdf_magic)) by (vm_compute; reflexivity).
  split; [exact Ha|].
  exact (proj1 (proj2 (C10_download_display_name Demo.env Demo.now "a.pdf"
                         _ _ Ha))).
Defined.

(** ** More on [format_date] *)

Lemma match_format_month_day_suffix (m d : N) (acc : datetime) (suffix : string) :
  (1 <= m < 13)%N -> (1 <= d < 32)%N ->
  exists more,
    match_format "-%m-%d" ("-" +:+ pad2 m +:+ "-" +:+ pad2 d +:+ suffix) acc =
    Some ((store "d" d (store "m" m acc), suffix) :: more).
Proof.
  intros [Hm1 Hm2] [Hd1 Hd2]. revert Hd1. revert d Hd2. revert Hm1.
  revert m Hm2. refine (N_cases_below 13 _ _). intros i Hi.
  nat_cases i ltac:(
    intros Hm1; first
      [ exfalso; lia
      | refine (N_cases_below 32 _ _); intros j Hj;
        nat_cases j ltac:(
          intros Hd1; first
            [ exfalso; lia | vm_compute; eexists; reflexivity ]) ]).
Qed.

Lemma match_format_month_day_unpadded (m d : N) (acc : datetime) :
  (1 <= m < 13)%N -> (1 <= d < 32)%N ->
  exists more,
    match_format "-%m-%d" ("-" +:+ dec m +:+ "-" +:+ dec d) acc =
    Some ((store "d" d (store "m" m acc), EmptyString) :: more).
Proof.
  intros [Hm1 Hm2] [Hd1 Hd2]. revert Hd1. revert d Hd2. revert Hm1.
  revert m Hm2. refine (N_cases_below 13 _ _). intros i Hi.
  nat_cases i ltac:(
    intros Hm1; first
      [ exfalso; lia
      | refine (N_cases_below 32 _ _); intros j Hj;
        nat_cases j ltac:(
          intros Hd1; first
            [ exfalso; lia | vm_compute; eexists; reflexivity ]) ]).
Qed.

Ltac nat_cases_upto k i tac :=
  lazymatch k with
  | O => exfalso; lia
  | S ?k' => destruct i as [|i]; [ tac | nat_cases_upto k' i tac ]
  end.

(** Outside the ranges of month and day, the pattern does not match, or
    it matches and leaves text over. *)
Lemma match_format_month_day_out_of_range (m d : N) (acc : datetime) :
  (m < 100)%N -> (d < 100)%N ->
  ((1 <=? m) && (m <? 13) && (1 <=? d) && (d <? 32))%N = false ->
  match_format "-%m-%d" ("-" +:+ pad2 m +:+ "-" +:+ pad2 d) acc = Some [] \/
  exists t c r more,
    match_format "-%m-%d" ("-" +:+ pad2 m +:+ "-" +:+ pad2 d) acc
    = Some ((t, String c r) :: more).
Proof.
  intros Hm Hd. revert d Hd. revert m Hm.
  refine (N_cases_below 100 _ _). intros i Hi.
  nat_cases_upto 100%nat i ltac:(
    idtac; cbv beta;
    lazymatch goal with
    | |- forall d, _ -> (?a && ?b && _ && _)%bool = false -> _ =>
        let v := eval vm_compute in (a && b)%bool in
        lazymatch v with
        | false => intros d Hd Hn; left; vm_compute; reflexivity
        | true =>
            refine (N_cases_below 100 _ _); intros j Hj;
            nat_cases_upto 100%nat j ltac:(
              idtac; intros Hn; first
                [ left; vm_compute; reflexivity
                | right; vm_compute; do 4 eexists; reflexivity
                | vm_compute in Hn; discriminate Hn ])
        end
    end).
Qed.

Lemma iso_date_append (y m d : N) (suffix : string) :
  iso_date y m d +:+ suffix
  = pad4 y +:+ "-" +:+ pad2 m +:+ "-" +:+ pad2 d +:+ suffix.
Proof. unfold iso_date. now rewrite !append_assoc. Qed.

(** What [strptime] answers on the ISO text of three numbers. *)
Lemma strptime_iso_decides (y m d : N) :
  (y < 10000)%N -> (m < 100)%N -> (d < 100)%N ->
  (valid_date y m d = true /\
   strptime (iso_date y m d) "%Y-%m-%d" = Return (mkDatetime y m d 0 0 0 0)) \/
  (valid_date y m d = false /\
   exists e, strptime (iso_date y m d) "%Y-%m-%d" = Raise e).
Proof.
  intros Hy Hm Hd.
  destruct (valid_date y m d) eqn:Hv.
  - left. split; [reflexivity|]. now apply strptime_iso.
  - right. split; [reflexivity|].
    unfold strptime, iso_date. rewrite match_format_year by exact Hy.
    destruct (((1 <=? m) && (m <? 13) && (1 <=? d) && (d <? 32))%N) eqn:Hr.
    + repeat (apply andb_prop in Hr as [Hr ?]).
      repeat match goal with
             | H : (_ <=? _)%N = true |- _ => apply N.leb_le in H
             | H : (_ <? _)%N = true |- _ => apply N.ltb_lt in H
             end.
      destruct (match_format_month_day m d (store "Y" y strptime_default))
        as [more ->]; [lia..|].
      cbn. rewrite Hv. now eexists.
    + destruct (match_format_month_day_out_of_range m d
                  (store "Y" y strptime_default) Hm Hd Hr)
        as [->|(t & c & r & more & ->)]; cbn; now eexists.
Qed.

Lemma strptime_long_date (env : Env) (t : datetime) :
  strptime (long_date env t) "%Y-%m-%d"
  = Raise (ValueError "time data does not match format").
Proof.
  unfold strptime, long_date, pad2.
  destruct (month_name (month t)) as [|c r]; simpl;
    change (is_digit " ") with false; rewrite !andb_false_r; reflexivity.
Qed.

(** X1: [format_date] is idempotent: what it returns is never itself
    accepted by [strptime], so applying it again changes nothing. *)
Theorem format_date_idempotent (env : Env) (date_str : string) :
  Main.format_date env (Main.format_date env date_str)
  = Main.format_date env date_str.
Proof.
  unfold Main.format_date at 2 3.
  destruct (strptime date_str "%Y-%m-%d") as [e|t] eqn:Hp.
  - unfold Main.format_date. now rewrite Hp.
  - rewrite strftime_long. unfold Main.format_date.
    now rewrite strptime_long_date.
Qed.

(** X2: a well-formed text that names no day of the calendar (a month
    outside 1..12, a day the month does not have, the year 0000) is
    returned as it is. *)
Theorem format_date_impossible_date (env : Env) (y m d : N) :
  (y < 10000)%N -> (m < 100)%N -> (d < 100)%N ->
  valid_date y m d = false ->
  Main.format_date env (iso_date y m d) = iso_date y m d.
Proof.
  intros Hy Hm Hd Hv.
  destruct (strptime_iso_decides y m d Hy Hm Hd) as [[Hv' _]|[_ [e He]]];
    [congruence|].
  unfold Main.format_date. now rewrite He.
Qed.

Lemma format_date_impossible_date_witness :
  ((2023 < 10000)%N /\ (2 < 100)%N /\ (29 < 100)%N /\
   valid_date 2023 2 29 = false /\
   Main.format_date Demo.env "2023-02-29" = "2023-02-29") /\
  Main.format_date Demo.env "2024-13-01" = "2024-13-01" /\
  Main.format_date Demo.env "0000-01-01" = "0000-01-01".
Proof.
  split; [|split].
  - split; [lia|]. split; [lia|]. split; [lia|]. split; [reflexivity|].
    exact (format_date_impossible_date Demo.env 2023 2 29
             ltac:(lia) ltac:(lia) ltac:(lia) eq_refl).
  - exact (format_date_impossible_date Demo.env 2024 13 1
             ltac:(lia) ltac:(lia) ltac:(lia) eq_refl).
  - exact (format_date_impossible_date Demo.env 0 1 1
             ltac:(lia) ltac:(lia) ltac:(lia) eq_refl).
Defined.

(** X3: text after a full ISO date (a time of day, for instance) makes
    [strptime] fail, and the whole text is returned as it is. *)
Theorem format_date_trailing_text (env : Env) (y m d : N) (c : ascii) (rest : string) :
  valid_date y m d = true ->
  Main.format_date env (iso_date y m d +:+ String c rest)
  = iso_date y m d +:+ String c rest.
Proof.
  intros Hv. destruct (valid_date_bounds _ _ _ Hv) as (Hy & Hm & Hd).
  unfold Main.format_date, strptime.
  rewrite iso_date_append, match_format_year by lia.
  destruct (match_format_month_day_suffix m d (store "Y" y strptime_default)
              (String c rest) Hm Hd) as [more ->].
  reflexivity.
Qed.

Lemma format_date_trailing_text_witness :
  valid_date 2024 3 5 = true /\
  Main.format_date Demo.env "2024-03-05T10:30" = "2024-03-05T10:30".
Proof.
  split; [reflexivity|].
  exact (format_date_trailing_text Demo.env 2024 3 5 "T" "10:30" eq_refl).
Defined.

(** X4: month and day may come without their leading zero; the result is
    the same long form, with the day padded. *)
Theorem format_date_unpadded (env : Env) (y m d : N) :
  valid_date y m d = true ->
  Main.format_date env (unpadded_date y m d)
  = long_date env (mkDatetime y m d 0 0 0 0) /\
  Main.format_date env (unpadded_date y m d)
  = Main.format_date env (iso_date y m d).
Proof.
  intros Hv. destruct (valid_date_bounds _ _ _ Hv) as (Hy & Hm & Hd).
  assert (H : Main.format_date env (unpadded_date y m d)
              = long_date env (mkDatetime y m d 0 0 0 0)).
  { unfold Main.format_date, strptime, unpadded_date.
    rewrite match_format_year by lia.
    destruct (match_format_month_day_unpadded m d
                (store "Y" y strptime_default) Hm Hd) as [more ->].
    cbn [app]. cbn [store year month day hour minute second microsecond
                    strptime_default Ascii.eqb].
    cbn. rewrite Hv. apply strftime_long. }
  split; [exact H|]. rewrite H.
  unfold Main.format_date. rewrite (strptime_iso _ _ _ Hv).
  symmetry. apply strftime_long.
Qed.

Lemma format_date_unpadded_witness :
  valid_date 2024 3 5 = true /\
  Main.format_date Demo.env "2024-3-5" = "05 March, 2024".
Proof.
  split; [reflexivity|].
  exact (proj1 (format_date_unpadded Demo.env 2024 3 5 eq_refl)).
Defined.

(** ** More on the signature *)

(** X5: when the signature holds more than one comma, what is decoded
    is the piece between the first two; whatever follows the second comma
    is dropped. *)
Theorem signature_bytes_ignores_third_piece (p q r : string) :
  contains "," p = false -> contains "," q = false ->
  Passport.signature_bytes (p +:+ "," +:+ q +:+ "," +:+ r) = b64decode q.
Proof.
  intros Hp Hq. unfold Passport.signature_bytes, split.
  change ("," +:+ q +:+ "," +:+ r) with (String "," (q +:+ String "," r)).
  rewrite (split_go_prefix _ _ _ _ Hp), (split_go_prefix _ _ _ _ Hq).
  reflexivity.
Qed.

Lemma signature_bytes_ignores_third_piece_witness :
  contains "," "data:image/png;base64" = false /\
  contains "," "aGVsbG8=" = false /\
  Passport.signature_bytes "data:image/png;base64,aGVsbG8=,!!not base64!!"
    = Return [104; 101; 108; 108; 111]%N.
Proof.
  split; [reflexivity|]. split; [reflexivity|].
  exact (signature_bytes_ignores_third_piece "data:image/png;base64"
           "aGVsbG8=" "!!not base64!!" eq_refl eq_refl).
Defined.

(** ** More on validation *)

Lemma field_error_entry (env : Env) (kw : list (string * JValue))
  (name name' kind : string) :
  Pydantic.field env kw name = inl (name', kind) <->
  name' = name /\ error_entry env kw name kind.
Proof.
  unfold Pydantic.field, error_entry. split.
  - destruct (dict_get name kw) as [v|].
    + destruct (Pydantic.validate_str env v) eqn:Hv; [discriminate|].
      intros H. injection H as <- <-. split; [reflexivity|].
      right. split; [reflexivity|]. now exists v.
    + intros H. injection H as <- <-. split; [reflexivity|]. now left.
  - intros [-> [[-> H]|[-> (v & H & Hv)]]]; rewrite H; [reflexivity|].
    now rewrite Hv.
Qed.

Section MoreValidation.
Variable env : Env.
Variable kw : list (string * JValue).
Let f := Pydantic.field env kw.

Lemma PassportDeclaration_init_raise_inv (e : Exn) :
  Main.PassportDeclaration_init env kw = Raise e ->
  e = ValidationError "PassportDeclaration"
        (Pydantic.errors (map f Pydantic.field_names)).
Proof.
  unfold Main.PassportDeclaration_init. fold f.
  unfold Pydantic.field_names. cbn [map]. intros H.
  field_cases f ltac:(injection H as <-; reflexivity) ltac:(discriminate H).
Qed.

Lemma PassportForm_init_raise_inv (e : Exn) :
  Passport.PassportForm_init env kw = Raise e ->
  e = ValidationError "PassportForm"
        (Pydantic.errors (map f Pydantic.field_names)).
Proof.
  unfold Passport.PassportForm_init. fold f.
  unfold Pydantic.field_names. cbn [map]. intros H.
  field_cases f ltac:(injection H as <-; reflexivity) ltac:(discriminate H).
Qed.

Lemma errors_entries (name kind : string) :
  In (name, kind) (Pydantic.errors (map f Pydantic.field_names)) <->
  In name Pydantic.field_names /\ error_entry env kw name kind.
Proof.
  unfold Pydantic.errors. rewrite <- list_elem_of_In, list_elem_of_omap.
  split.
  - intros (r & Hr & Hsome). destruct r as [e|s]; [|discriminate].
    injection Hsome as ->. apply list_elem_of_In, in_map_iff in Hr.
    destruct Hr as (n & Hn & Hin). apply field_error_entry in Hn as [-> He].
    now split.
  - intros [Hin He]. exists (inl (name, kind)). split; [|reflexivity].
    apply list_elem_of_In, in_map_iff. exists name. split; [|exact Hin].
    now apply field_error_entry.
Qed.

(** The two models make the same record of the same body. *)
Lemma models_agree_on_success (declaration : Main.PassportDeclaration) :
  Main.PassportDeclaration_init env kw = Return declaration ->
  exists form,
    Passport.PassportForm_init env kw = Return form /\
    Passport.items form = Main.items declaration.
Proof.
  unfold Main.PassportDeclaration_init, Passport.PassportForm_init. fold f.
  intros H.
  field_cases f ltac:(discriminate H)
    ltac:(injection H as <-; eexists; split; reflexivity).
Qed.

Lemma models_agree_on_success_back (form : Passport.PassportForm) :
  Passport.PassportForm_init env kw = Return form ->
  exists declaration,
    Main.PassportDeclaration_init env kw = Return declaration /\
    Passport.items form = Main.items declaration.
Proof.
  unfold Main.PassportDeclaration_init, Passport.PassportForm_init. fold f.
  intros H.
  field_cases f ltac:(discriminate H)
    ltac:(injection H as <-; eexists; split; reflexivity).
Qed.

End MoreValidation.

(** X6: the two variants validate alike: a body that one model accepts,
    the other accepts with the same field values, and a body that one
    refuses, the other refuses with the same list of errors. *)
Theorem models_validate_alike (env : Env) (kw : list (string * JValue)) :
  (forall declaration,
     Main.PassportDeclaration_init env kw = Return declaration ->
     exists form,
       Passport.PassportForm_init env kw = Return form /\
       Passport.items form = Main.items declaration) /\
  (forall form,
     Passport.PassportForm_init env kw = Return form ->
     exists declaration,
       Main.PassportDeclaration_init env kw = Return declaration /\
       Passport.items form = Main.items declaration) /\
  (forall errors,
     Main.PassportDeclaration_init env kw
       = Raise (ValidationError "PassportDeclaration" errors) <->
     Passport.PassportForm_init env kw
       = Raise (ValidationError "PassportForm" errors)).
Proof.
  split; [apply models_agree_on_success|].
  split; [apply models_agree_on_success_back|].
  intros errors. split; intros H.
  - destruct (Passport.PassportForm_init env kw) as [e|form] eqn:Hf.
    + apply PassportForm_init_raise_inv in Hf as ->.
      apply PassportDeclaration_init_raise_inv in H.
      injection H as ->. reflexivity.
    + apply models_agree_on_success_back in Hf as (d & Hd & _). congruence.
  - destruct (Main.PassportDeclaration_init env kw) as [e|d] eqn:Hd.
    + apply PassportDeclaration_init_raise_inv in Hd as ->.
      apply PassportForm_init_raise_inv in H.
      injection H as ->. reflexivity.
    + apply models_agree_on_success in Hd as (form & Hf & _). congruence.
Qed.

(** X7: the error list of a refused body is exact: a field is listed if
    and only if it belongs to the model and is missing or has a value the
    [str] validator refuses, with the kind that says which; a body is
    accepted if and only if no field of the model is refused. *)
Theorem validation_errors_exact (env : Env) (kw : list (string * JValue)) :
  (forall e,
     Main.PassportDeclaration_init env kw = Raise e ->
     exists errors,
       e = ValidationError "PassportDeclaration" errors /\
       errors <> [] /\
       forall name kind,
         In (name, kind) errors <->
         In name Pydantic.field_names /\ error_entry env kw name kind) /\
  ((exists declaration,
      Main.PassportDeclaration_init env kw = Return declaration) <->
   forall name, In name Pydantic.field_names -> ~ refused env kw name).
Proof.
  split.
  - intros e H. pose proof (PassportDeclaration_init_raise_inv _ _ _ H) as ->.
    eexists. split; [reflexivity|]. split; [|apply errors_entries].
    intros Hnil.
    destruct (PassportDeclaration_init_accepts env kw) as [d Hd];
      [|congruence].
    intros name Hin.
    destruct (Pydantic.field env kw name) as [[n k]|s] eqn:Hf; [|now exists s].
    exfalso. assert (Hin' : In (n, k) []); [|destruct Hin'].
    rewrite <- Hnil. apply errors_elem. rewrite <- Hf. now apply in_map.
  - split.
    + intros [d Hd] name Hin Href.
      destruct (field_refused _ _ _ Href) as [kind Hk].
      rewrite (PassportDeclaration_init_raises env kw name _ Hin Hk) in Hd.
      discriminate Hd.
    + intros H. apply PassportDeclaration_init_accepts. intros name Hin.
      destruct (Pydantic.field env kw name) as [[n k]|s] eqn:Hf; [|now exists s].
      exfalso. apply (H name Hin).
      apply field_error_entry in Hf as [_ [[_ Hm]|[_ Hv]]]; [now left|now right].
Qed.

Lemma validation_errors_exact_witness :
  Main.PassportDeclaration_init Demo.env Demo.body_missing_date
    = Raise (ValidationError "PassportDeclaration" [("date", "missing")]) /\
  (forall name kind,
     In (name, kind) [("date", "missing")] <->
     In name Pydantic.field_names /\
     error_entry Demo.env Demo.body_missing_date name kind).
Proof.
  split; [reflexivity|].
  destruct (proj1 (validation_errors_exact Demo.env Demo.body_missing_date)
              _ eq_refl) as (errors & He & _ & H).
  injection He as <-. exact H.
Defined.

Lemma field_cons_other (env : Env) (kw : list (string * JValue))
  (k : string) (v : JValue) (name : string) :
  k <> name ->
  Pydantic.field env ((k, v) :: kw) name = Pydantic.field env kw name.
Proof.
  intros Hne. unfold Pydantic.field. cbn [dict_get].
  destruct (String.eqb_spec k name); [contradiction|reflexivity].
Qed.

(** X8: a key of the body that is not a field of the model is ignored:
    both models, and the template variant's handler, answer as if it were
    not there. *)
Theorem unknown_key_ignored (env : Env) (now : datetime) (uuid4 : N)
  (kw : list (string * JValue)) (k : string) (v : JValue) (fs : FS.t) :
  ~ In k Pydantic.field_names ->
  Main.PassportDeclaration_init env ((k, v) :: kw)
    = Main.PassportDeclaration_init env kw /\
  Passport.PassportForm_init env ((k, v) :: kw)
    = Passport.PassportForm_init env kw /\
  Main.submit_passport_declaration env now uuid4 (Return (JObj ((k, v) :: kw))) fs
    = Main.submit_passport_declaration env now uuid4 (Return (JObj kw)) fs /\
  Passport.post_api_passport env now (JObj ((k, v) :: kw)) fs
    = Passport.post_api_passport env now (JObj kw) fs.
Proof.
  intros Hk.
  assert (Hf : forall name, In name Pydantic.field_names ->
                 Pydantic.field env ((k, v) :: kw) name
                 = Pydantic.field env kw name).
  { intros name Hin. apply field_cons_other. intros ->. contradiction. }
  assert (H1 : Main.PassportDeclaration_init env ((k, v) :: kw)
               = Main.PassportDeclaration_init env kw).
  { unfold Main.PassportDeclaration_init.
    rewrite !Hf by (cbn; tauto). reflexivity. }
  assert (H2 : Passport.PassportForm_init env ((k, v) :: kw)
               = Passport.PassportForm_init env kw).
  { unfold Passport.PassportForm_init.
    rewrite !Hf by (cbn; tauto). reflexivity. }
  split; [exact H1|]. split; [exact H2|]. split.
  - unfold Main.submit_passport_declaration, Main.submit_body. now rewrite H1.
  - unfold Passport.post_api_passport. now rewrite H2.
Qed.

Lemma unknown_key_ignored_witness :
  ~ In "nickname" Pydantic.field_names /\
  Main.PassportDeclaration_init Demo.env (("nickname", JNum 7) :: Demo.body)
    = Return Demo.declaration.
Proof.
  assert (H : ~ In "nickname" Pydantic.field_names).
  { cbn. intros Hin. repeat (destruct Hin as [Hin|Hin]; [discriminate Hin|]).
    exact Hin. }
  split; [exact H|].
  exact (proj1 (unknown_key_ignored Demo.env Demo.now 255 Demo.body
                  "nickname" (JNum 7) ∅ H)).
Defined.

(** ** More on the template variant's handler *)

Lemma serve_submit_raise (env : Env) (now : datetime) (uuid4 : N)
  (request_json : result Exn JValue) (fs fs' : FS.t) (e : Exn) :
  Main.submit_body env now uuid4 request_json fs = (Raise e, fs') ->
  Main.serve (Main.submit_passport_declaration env now uuid4 request_json) fs
  = (error_reply env e, fs').
Proof.
  intros H. unfold Main.serve, Main.submit_passport_declaration.
  now rewrite H.
Qed.




(** X10: when the engine returns with its error flag set, the handler's
    own [HTTPException(500, "PDF generation failed")] is caught by the
    handler's own [except] clause: the client gets the prefixed text of
    that exception, not its detail; when the engine raises, the client gets
    the prefixed text of what it raised. *)
Theorem submit_engine_error_rewrapped (env : Env) (now : datetime) (uuid4 : N)
  (kw : list (string * JValue)) (declaration : Main.PassportDeclaration)
  (fs fs1 : FS.t) :
  Main.PassportDeclaration_init env kw = Return declaration ->
  open_wb env fs (filepath_of uuid4 declaration) = Return fs1 ->
  let reply :=
    fst (Main.serve
           (Main.submit_passport_declaration env now uuid4 (Return (JObj kw)))
           fs) in
  match xhtml2pdf_CreatePDF env (Main.generate_pdf_html env now declaration) with
  | PisaReturned _ true =>
      payload reply
      = Json (JObj [("detail",
                     JStr ("Error generating PDF: "
                             +:+ library_str env
                                   (HTTPException 500 "PDF generation failed")))])
      /\ status reply = 500%nat
  | PisaReturned _ false => status reply = 200%nat
  | PisaRaised _ e => reply = error_reply env e
  end.
Proof.
  intros Hinit Hopen. cbv zeta.
  unfold Main.serve, Main.submit_passport_declaration, Main.submit_body,
    Main.write_pdf.
  rewrite Hinit. fold (filepath_of uuid4 declaration). rewrite Hopen.
  destruct (xhtml2pdf_CreatePDF env _) as [written [|]|written e];
    cbn; auto.
Qed.

Lemma submit_engine_error_rewrapped_witness :
  Main.PassportDeclaration_init Demo.env_failing Demo.body
    = Return Demo.declaration /\
  open_wb Demo.env_failing ∅ (filepath_of 255 Demo.declaration)
    = Return (<[filepath_of 255 Demo.declaration := FS.File []]> ∅) /\
  payload
    (fst (Main.serve
            (Main.submit_passport_declaration Demo.env_failing Demo.now 255
               (Return (JObj Demo.body))) ∅))
  = Json (JObj [("detail",
                 JStr "Error generating PDF: PDF generation failed")]).
Proof.
  assert (Hinit : Main.PassportDeclaration_init Demo.env_failing Demo.body
                  = Return Demo.declaration) by reflexivity.
  assert (Hopen : open_wb Demo.env_failing ∅ (filepath_of 255 Demo.declaration)
                  = Return (<[filepath_of 255 Demo.declaration := FS.File []]> ∅))
    by (apply open_wb_free; reflexivity).
  split; [exact Hinit|]. split; [exact Hopen|].
  exact (proj1 (submit_engine_error_rewrapped Demo.env_failing Demo.now 255
                  Demo.body Demo.declaration ∅ _ Hinit Hopen)).
Defined.

(** ** The store under the two [POST] handlers *)

Lemma create_passport_store (env : Env) (now : datetime)
  (form : Passport.PassportForm) (fs : FS.t) :
  let path := pathlib_div Passport.pdf_folder (Passport.filename_of env now form) in
  snd (Passport.create_passport env now form fs) = fs \/
  exists data,
    snd (Passport.create_passport env now form fs) = <[path := FS.File data]> fs.
Proof.
  cbv zeta. unfold Passport.create_passport, Passport.build.
  destruct (Passport.story_of env form) as [e|story]; [now left|].
  destruct (reportlab_build env story) as [data|e [data|]];
    try (now left);
    destruct (open_wb env fs _) as [e'|fs1] eqn:Hopen; try (now left);
    apply open_wb_inserts in Hopen as ->; right; exists data;
    cbn; now rewrite insert_insert_eq.
Qed.

Lemma submit_store (env : Env) (now : datetime) (uuid4 : N)
  (request_json : result Exn JValue) (fs : FS.t) :
  snd (Main.submit_passport_declaration env now uuid4 request_json fs) = fs \/
  exists kw declaration data,
    request_json = Return (JObj kw) /\
    Main.PassportDeclaration_init env kw = Return declaration /\
    snd (Main.submit_passport_declaration env now uuid4 request_json fs)
    = <[filepath_of uuid4 declaration := FS.File data]> fs.
Proof.
  unfold Main.submit_passport_declaration, Main.submit_body, Main.write_pdf.
  destruct request_json as [e|[| | | | |kw]]; try (now left).
  destruct (Main.PassportDeclaration_init env kw) as [e|d] eqn:Hinit;
    [now left|].
  fold (filepath_of uuid4 d).
  destruct (open_wb env fs _) as [e|fs1] eqn:Hopen; [now left|].
  apply open_wb_inserts in Hopen as ->.
  right. exists kw, d.
  destruct (xhtml2pdf_CreatePDF env _) as [written [|]|written e];
    exists written; cbn; now rewrite insert_insert_eq.
Qed.

(** X11: a submission changes the store at one path at most, the path
    of its own document, and removes nothing: every other path holds after
    the request what it held before, in both variants. *)
Theorem post_handlers_frame (env : Env) (now : datetime) (uuid4 : N) (fs : FS.t) :
  (forall form p,
     p <> pathlib_div Passport.pdf_folder (Passport.filename_of env now form) ->
     snd (Passport.create_passport env now form fs) !! p = fs !! p) /\
  (forall form p,
     is_Some (fs !! p) ->
     is_Some (snd (Passport.create_passport env now form fs) !! p)) /\
  (forall kw declaration p,
     Main.PassportDeclaration_init env kw = Return declaration ->
     p <> filepath_of uuid4 declaration ->
     snd (Main.submit_passport_declaration env now uuid4 (Return (JObj kw)) fs)
       !! p = fs !! p) /\
  (forall request_json p,
     is_Some (fs !! p) ->
     is_Some (snd (Main.submit_passport_declaration env now uuid4
                     request_json fs) !! p)).
Proof.
  split; [|split; [|split]].
  - intros form p Hp.
    destruct (create_passport_store env now form fs) as [->|[data ->]];
      [reflexivity|]. now apply lookup_insert_ne.
  - intros form p Hs.
    destruct (create_passport_store env now form fs) as [->|[data ->]];
      [exact Hs|].
    rewrite lookup_insert. case_decide; [now eexists|exact Hs].
  - intros kw d p Hinit Hp.
    destruct (submit_store env now uuid4 (Return (JObj kw)) fs)
      as [->|(kw' & d' & data & Hkw & Hinit' & ->)]; [reflexivity|].
    injection Hkw as <-. rewrite Hinit in Hinit'. injection Hinit' as <-.
    now apply lookup_insert_ne.
  - intros rj p Hs.
    destruct (submit_store env now uuid4 rj fs)
      as [->|(kw' & d' & data & _ & _ & ->)]; [exact Hs|].
    rewrite lookup_insert. case_decide; [now eexists|exact Hs].
Qed.

Lemma post_handlers_frame_witness :
  Main.PassportDeclaration_init Demo.env Demo.body = Return Demo.declaration /\
  "pdf_files/older.pdf" <> filepath_of 255 Demo.declaration /\
  snd (Main.submit_passport_declaration Demo.env Demo.now 255
         (Return (JObj Demo.body))
         {["pdf_files/older.pdf" := FS.File Demo.pdf_magic]})
    !! "pdf_files/older.pdf"
  = ({["pdf_files/older.pdf" := FS.File Demo.pdf_magic]} : FS.t)
      !! "pdf_files/older.pdf".
Proof.
  assert (Hne : "pdf_files/older.pdf" <> filepath_of 255 Demo.declaration)
    by discriminate.
  split; [reflexivity|]. split; [exact Hne|].
  exact (proj1 (proj2 (proj2
           (post_handlers_frame Demo.env Demo.now 255
              {["pdf_files/older.pdf" := FS.File Demo.pdf_magic]})))
           Demo.body Demo.declaration _ eq_refl Hne).
Defined.

Lemma serve_view_file (filename : string) (fs : FS.t) (bs : list N) :
  fs !! os_path_join Main.pdf_files filename = Some (FS.File bs) ->
  Main.serve (Main.view_pdf filename) fs
  = (mkReply 200 "application/pdf" None (Bytes bs), fs).
Proof.
  intros Hl.
  unfold Main.serve, Main.view_pdf, FS.exists_. rewrite Hl. cbn [negb].
  unfold FastAPI.send, FastAPI.respond, FS.read_file. now rewrite Hl.
Qed.

Lemma serve_download_file (env : Env) (now : datetime) (filename : string)
  (fs : FS.t) (bs : list N) :
  fs !! os_path_join Main.pdf_files filename = Some (FS.File bs) ->
  Main.serve (Main.download_pdf env now filename) fs
  = (mkReply 200 "application/pdf"
       (Some ("attachment; filename=" +:+ dq +:+ display_name env now +:+ dq))
       (Bytes bs), fs).
Proof.
  intros Hl.
  unfold Main.serve, Main.download_pdf, FS.exists_. rewrite Hl. cbn [negb].
  unfold FastAPI.send, FastAPI.respond, FS.read_file. now rewrite Hl.
Qed.

(** X12: after a successful submission to the template variant, the
    name in [pdf_file] is the one in [view_url] and [download_url], and
    asking for it, by either route, returns exactly the bytes that the
    engine wrote. *)
Theorem submit_then_retrieve (env : Env) (now later : datetime) (uuid4 : N)
  (request_json : result Exn JValue) (fs fs' : FS.t) (response : Response) :
  Main.submit_passport_declaration env now uuid4 request_json fs
    = (Return response, fs') ->
  exists filename declaration data,
    xhtml2pdf_CreatePDF env (Main.generate_pdf_html env now declaration)
      = PisaReturned data false /\
    dict_get "pdf_file" (response_items response) = Some (JStr filename) /\
    dict_get "view_url" (response_items response)
      = Some (JStr ("/view/" +:+ filename)) /\
    dict_get "download_url" (response_items response)
      = Some (JStr ("/download/" +:+ filename)) /\
    Main.serve (Main.view_pdf filename) fs'
      = (mkReply 200 "application/pdf" None (Bytes data), fs') /\
    Main.serve (Main.download_pdf env later filename) fs'
      = (mkReply 200 "application/pdf"
           (Some ("attachment; filename=" +:+ dq +:+ display_name env later
                    +:+ dq))
           (Bytes data), fs').
Proof.
  intros H.
  apply submit_success in H as (kw & d & data & -> & Hinit & Hp & -> & ->).
  exists (Main.filename_of uuid4 d), d, data.
  split; [exact Hp|].
  split; [reflexivity|]. split; [reflexivity|]. split; [reflexivity|].
  assert (Hl : (<[filepath_of uuid4 d := FS.File data]> fs)
                 !! os_path_join Main.pdf_files (Main.filename_of uuid4 d)
               = Some (FS.File data)) by apply lookup_insert_eq.
  split; [now apply serve_view_file|now apply serve_download_file].
Qed.

Lemma submit_then_retrieve_witness :
  Main.submit_passport_declaration Demo.env Demo.now Demo.uuid_a
    (Return (JObj Demo.body)) ∅
  = (Return
       (JSONResponse 200
          (JObj [("message", JStr "Passport declaration submitted successfully");
                 ("pdf_file", JStr (Main.filename_of Demo.uuid_a Demo.declaration));
                 ("download_url",
                  JStr ("/download/"
                          +:+ Main.filename_of Demo.uuid_a Demo.declaration));
                 ("view_url",
                  JStr ("/view/"
                          +:+ Main.filename_of Demo.uuid_a Demo.declaration))])),
     <[filepath_of Demo.uuid_a Demo.declaration := FS.File Demo.pdf_magic]> ∅) /\
  fst (Main.serve (Main.view_pdf "passport_declaration_E123_3f2a9c1e.pdf")
         (<[filepath_of Demo.uuid_a Demo.declaration := FS.File Demo.pdf_magic]> ∅))
  = mkReply 200 "application/pdf" None (Bytes Demo.pdf_magic).
Proof.
  pose proof (submit_stores Demo.env Demo.now Demo.uuid_a Demo.body
                Demo.declaration ∅ _ eq_refl eq_refl (lookup_empty _) eq_refl)
    as Hm.
  split; [exact Hm|].
  destruct (submit_then_retrieve Demo.env Demo.now Demo.now _ _ _ _ _ Hm)
    as (filename & d & data & Hp & Hf & _ & _ & Hv & _).
  cbn in Hf. injection Hf as <-.
  change (PisaReturned Demo.pdf_magic false = PisaReturned data false) in Hp.
  injection Hp as <-.
  exact (f_equal fst Hv).
Defined.

(** ** More on the structured-layout variant *)

Lemma signature_bytes_needs_comma (signature : string) (bytes : list N) :
  Passport.signature_bytes signature = Return bytes ->
  contains "," signature = true.
Proof.
  intros H. destruct (contains "," signature) eqn:Hc; [reflexivity|].
  unfold Passport.signature_bytes in H. rewrite (split_no_sep _ _ Hc) in H.
  discriminate H.
Qed.

Lemma story_head_length (env : Env) (form : Passport.PassportForm)
  (head : list Flowable) :
  Passport.story_head env form = Return head -> length head = 18%nat.
Proof.
  unfold Passport.story_head, Passport.paragraph.
  repeat match goal with
         | |- context [reportlab_Paragraph env ?t] =>
             destruct (reportlab_Paragraph env t); [discriminate|]
         end.
  cbn. intros H. now injection H as <-.
Qed.

(** X13: behind every success of the structured-layout variant: the
    signature held a comma and its second piece decoded to some bytes; the
    engine was given the eighteen flowables of the letter followed by the
    [Signature:] label and the picture of those bytes at 120 by 60; the
    file named in [pdf_file] holds what the engine built. *)
Theorem create_passport_success_story (env : Env) (now : datetime)
  (form : Passport.PassportForm) (fs fs' : FS.t) (content : JValue) :
  Passport.create_passport env now form fs = (JSONResponse 200 content, fs') ->
  exists head bytes data path,
    Passport.story_head env form = Return head /\
    length head = 18%nat /\
    contains "," (Passport.signature form) = true /\
    Passport.signature_bytes (Passport.signature form) = Return bytes /\
    reportlab_build env
      (head ++ [Paragraph "Signature:" "Normal"; Image bytes 120 60])
      = Built data /\
    dict_get "pdf_file" (response_items (JSONResponse 200 content))
      = Some (JStr path) /\
    fs' !! path = Some (FS.File data).
Proof.
  intros H.
  apply create_passport_success in H as (story & data & Hs & Hb & -> & ->).
  unfold Passport.story_of in Hs.
  destruct (Passport.story_head env form) as [e|head] eqn:Hh; [discriminate|].
  cbn [rbind] in Hs.
  destruct (Passport.signature_bytes _) as [e|bytes] eqn:Hsig; [discriminate|].
  cbn [rbind] in Hs.
  destruct (reportlab_Image env bytes); [discriminate|].
  unfold Passport.paragraph in Hs.
  destruct (reportlab_Paragraph env "Signature:"); [discriminate|].
  cbn [rbind] in Hs. injection Hs as <-.
  exists head, bytes, data, (pathlib_div Passport.pdf_folder
                               (Passport.filename_of env now form)).
  split; [reflexivity|]. split; [now apply (story_head_length env form)|].
  split; [now apply (signature_bytes_needs_comma _ bytes)|].
  split; [reflexivity|]. split; [exact Hb|]. split; [reflexivity|].
  apply lookup_insert_eq.
Qed.

Lemma create_passport_success_story_witness :
  Passport.create_passport Demo.env Demo.now Demo.form ∅
  = (JSONResponse 200
       (JObj [("message", JStr "Form data received and professional PDF generated");
              ("data", Passport.dict Demo.form);
              ("pdf_file",
               JStr (pathlib_div Passport.pdf_folder
                       (Passport.filename_of Demo.env Demo.now Demo.form)))]),
     <[pathlib_div Passport.pdf_folder
         (Passport.filename_of Demo.env Demo.now Demo.form)
       := FS.File (Demo.pdf_magic ++ [104; 101; 108; 108; 111]%N)]> ∅) /\
  Passport.signature_bytes (Passport.signature Demo.form)
    = Return [104; 101; 108; 108; 111]%N /\
  contains "," (Passport.signature Demo.form) = true.
Proof.
  pose proof (create_passport_stores Demo.env Demo.now Demo.form ∅ _
                (Demo.pdf_magic ++ [104; 101; 108; 108; 111]%N)
                eq_refl eq_refl (lookup_empty _) eq_refl) as Hc.
  split; [exact Hc|].
  destruct (create_passport_success_story Demo.env Demo.now Demo.form _ _ _ Hc)
    as (head & bytes & data & path & _ & _ & Hcomma & Hsig & _).
  split; [reflexivity|exact Hcomma].
Defined.

(** X14: when the file cannot be opened for writing, both variants
    answer with the error of the operating system and leave the store
    unchanged; the template variant does not run the engine at all, the
    structured-layout variant drops what the engine built. *)
Theorem open_failure_leaves_store (env : Env) (now : datetime) (uuid4 : N)
  (fs : FS.t) :
  (forall kw declaration e,
     Main.PassportDeclaration_init env kw = Return declaration ->
     open_wb env fs (filepath_of uuid4 declaration) = Raise e ->
     Main.serve
       (Main.submit_passport_declaration env now uuid4 (Return (JObj kw))) fs
     = (error_reply env e, fs)) /\
  (forall form story data e,
     Passport.story_of env form = Return story ->
     reportlab_build env story = Built data ->
     open_wb env fs
       (pathlib_div Passport.pdf_folder (Passport.filename_of env now form))
       = Raise e ->
     Passport.create_passport env now form fs
     = (Passport.error_response env e, fs)) /\
  (forall path,
     fs !! path = Some FS.Dir \/ os_can_write env path = false ->
     open_wb env fs path = Raise (OSError path)).
Proof.
  split; [|split].
  - intros kw d e Hinit Hopen. apply serve_submit_raise.
    unfold Main.submit_body, Main.write_pdf. rewrite Hinit.
    fold (filepath_of uuid4 d). now rewrite Hopen.
  - intros form story data e Hs Hb Hopen.
    unfold Passport.create_passport, Passport.build. now rewrite Hs, Hb, Hopen.
  - intros path [H|H]; unfold open_wb.
    + now rewrite H.
    + rewrite H. now destruct (fs !! path) as [[|]|].
Qed.

Lemma open_failure_leaves_store_witness :
  let fs : FS.t := {[filepath_of 255 Demo.declaration := FS.Dir]} in
  Main.PassportDeclaration_init Demo.env Demo.body = Return Demo.declaration /\
  open_wb Demo.env fs (filepath_of 255 Demo.declaration)
    = Raise (OSError (filepath_of 255 Demo.declaration)) /\
  Main.serve
    (Main.submit_passport_declaration Demo.env Demo.now 255
       (Return (JObj Demo.body))) fs
  = (error_reply Demo.env (OSError (filepath_of 255 Demo.declaration)), fs).
Proof.
  cbv zeta.
  destruct (open_failure_leaves_store Demo.env Demo.now 255
              {[filepath_of 255 Demo.declaration := FS.Dir]})
    as (H1 & _ & H3).
  assert (Hopen : open_wb Demo.env {[filepath_of 255 Demo.declaration := FS.Dir]}
                    (filepath_of 255 Demo.declaration)
                  = Raise (OSError (filepath_of 255 Demo.declaration))).
  { apply H3. left. apply lookup_singleton_eq. }
  split; [reflexivity|]. split; [exact Hopen|].
  exact (H1 Demo.body Demo.declaration _ eq_refl Hopen).
Defined.

(** ** More on file names *)

Lemma append_inj_length_r (a b x y : string) :
  String.length x = String.length y ->
  a +:+ x = b +:+ y -> a = b /\ x = y.
Proof.
  intros Hl H. apply append_inj_length; [|exact H].
  apply (f_equal String.length) in H. rewrite !length_append in H. lia.
Qed.

(** X15: a file name determines the employee code and the token: two
    submissions get the same name only if their employee codes are equal
    and, in the structured-layout variant, they fall in the same second,
    in the template variant, their identifiers start with the same eight
    hexadecimal digits.  Two employees never share a file name. *)
Theorem filename_determines_code_and_token (env : Env) :
  (forall now1 now2 form1 form2,
     valid_datetime now1 = true -> valid_datetime now2 = true ->
     (1000 <= year now1)%N -> (1000 <= year now2)%N ->
     (Passport.filename_of env now1 form1 = Passport.filename_of env now2 form2
      <-> Passport.employeeCode form1 = Passport.employeeCode form2 /\
          same_second now1 now2)) /\
  (forall uuid1 uuid2 d1 d2,
     Main.filename_of uuid1 d1 = Main.filename_of uuid2 d2
     <-> Main.employeeCode d1 = Main.employeeCode d2 /\
         hex8 uuid1 = hex8 uuid2).
Proof.
  split.
  - intros now1 now2 form1 form2 V1 V2 Y1 Y2.
    rewrite <- (timestamp_same_second env now1 now2 V1 V2 Y1 Y2).
    unfold Passport.filename_of. fold (timestamp env now1) (timestamp env now2).
    split.
    + intros H. apply append_inv_head in H.
      apply append_inj_length_r in H as [Hc H].
      * split; [exact Hc|]. apply append_inv_head in H.
        now apply append_inv_tail in H.
      * rewrite !length_append, !timestamp_length by assumption. reflexivity.
    + now intros [-> ->].
  - intros uuid1 uuid2 d1 d2. unfold Main.filename_of.
    fold (hex8 uuid1) (hex8 uuid2). split.
    + intros H. apply append_inv_head in H.
      apply append_inj_length_r in H as [Hc H].
      * split; [exact Hc|]. apply append_inv_head in H.
        now apply append_inv_tail in H.
      * rewrite !length_append.
        now rewrite (proj1 (hex8_facts uuid1)), (proj1 (hex8_facts uuid2)).
    + now intros [-> ->].
Qed.

Lemma filename_determines_code_and_token_witness :
  valid_datetime Demo.now = true /\
  valid_datetime Demo.a_little_later = true /\
  (1000 <= year Demo.now)%N /\ (1000 <= year Demo.a_little_later)%N /\
  (Passport.filename_of Demo.env Demo.now Demo.form
     = Passport.filename_of Demo.env Demo.a_little_later Demo.form_other
   <-> Passport.employeeCode Demo.form = Passport.employeeCode Demo.form_other /\
       same_second Demo.now Demo.a_little_later).
Proof.
  assert (Y1 : (1000 <= year Demo.now)%N) by (cbn; lia).
  assert (Y2 : (1000 <= year Demo.a_little_later)%N) by (cbn; lia).
  split; [reflexivity|]. split; [reflexivity|].
  split; [exact Y1|]. split; [exact Y2|].
  exact (proj1 (filename_determines_code_and_token Demo.env)
           Demo.now Demo.a_little_later Demo.form Demo.form_other
           eq_refl eq_refl Y1 Y2).
Defined.

(** ** More on retrieval *)

(** X16: for every name and store, [/view] and [/download] answer with
    the same status, content type and body; only [/download] adds a
    [Content-Disposition], and only when it answers 200. *)
Theorem view_and_download_agree (env : Env) (now : datetime)
  (filename : string) (fs : FS.t) :
  let download := fst (Main.serve (Main.download_pdf env now filename) fs) in
  let view := fst (Main.serve (Main.view_pdf filename) fs) in
  status download = status view /\
  content_type download = content_type view /\
  payload download = payload view /\
  disposition view = None /\
  (disposition download
     = if (status download =? 200)%nat
       then Some ("attachment; filename=" +:+ dq +:+ display_name env now +:+ dq)
       else None).
Proof.
  cbv zeta.
  unfold Main.serve, Main.download_pdf, Main.view_pdf, FS.exists_.
  destruct (fs !! os_path_join Main.pdf_files filename) as [[bs|]|] eqn:Hl;
    cbn [negb fst];
    unfold FastAPI.send, FastAPI.respond, FS.read_file; rewrite ?Hl;
    repeat split.
Qed.



(** ** The answers of the structured-layout handler *)


(** ** The health check *)

Lemma pad6_inj (a b : N) :
  (a < 1000000)%N -> (b < 1000000)%N -> pad6 a = pad6 b -> a = b.
Proof.
  intros Ha Hb H. unfold pad6 in H.
  apply append_inj_length in H as [H1 H2]; [|reflexivity].
  apply pad2_inj in H1;
    [|apply N.Div0.div_lt_upper_bound; lia|apply N.Div0.div_lt_upper_bound; lia].
  apply pad4_inj in H2; [|apply N.mod_lt; lia|apply N.mod_lt; lia].
  rewrite (N.div_mod a 10000), (N.div_mod b 10000) by lia.
  now rewrite H1, H2.
Qed.

Lemma valid_datetime_microsecond (t : datetime) :
  valid_datetime t = true -> (microsecond t < 1000000)%N.
Proof.
  unfold valid_datetime, valid_time. intros H.
  apply andb_prop in H as [_ H]. apply andb_prop in H as [_ H].
  now apply N.ltb_lt in H.
Qed.

Lemma isoformat_inj (t1 t2 : datetime) :
  valid_datetime t1 = true -> valid_datetime t2 = true ->
  isoformat t1 = isoformat t2 -> t1 = t2.
Proof.
  intros V1 V2 H.
  pose proof (valid_datetime_microsecond _ V1) as U1.
  pose proof (valid_datetime_microsecond _ V2) as U2.
  apply valid_datetime_bounds in V1, V2.
  unfold isoformat in H.
  apply append_inj_length in H as [Hy H]; [|reflexivity].
  apply append_inv_head in H.
  apply append_inj_length in H as [Hm H]; [|reflexivity].
  apply append_inv_head in H.
  apply append_inj_length in H as [Hd H]; [|reflexivity].
  apply append_inv_head in H.
  apply append_inj_length in H as [Hh H]; [|reflexivity].
  apply append_inv_head in H.
  apply append_inj_length in H as [Hmi H]; [|reflexivity].
  apply append_inv_head in H.
  apply append_inj_length in H as [Hs H]; [|reflexivity].
  apply pad4_inj in Hy; [|lia|lia].
  apply pad2_inj in Hm, Hd, Hh, Hmi, Hs; try lia.
  assert (Hu : microsecond t1 = microsecond t2).
  { destruct (N.eqb_spec (microsecond t1) 0) as [E1|E1];
      destruct (N.eqb_spec (microsecond t2) 0) as [E2|E2];
      try discriminate H.
    - congruence.
    - apply append_inv_head in H. now apply pad6_inj in H. }
  destruct t1, t2. cbn in *. congruence.
Qed.

(** X18: the health check answers 200 with the status [healthy] and the
    ISO text of the current moment, leaves the store alone, and its
    timestamp is 19 characters long when the microseconds are zero and 26
    otherwise; two valid moments give the same timestamp only if they are
    the same moment, microseconds included. *)
Theorem health_check_timestamp (now : datetime) (fs : FS.t) :
  valid_datetime now = true ->
  Main.health_check now fs
    = (Return (JSONResponse 200
                 (JObj [("status", JStr "healthy");
                        ("timestamp", JStr (isoformat now))])), fs) /\
  String.length (isoformat now)
    = (if (microsecond now =? 0)%N then 19%nat else 26%nat) /\
  (forall other fs',
     valid_datetime other = true ->
     fst (Main.health_check other fs') = fst (Main.health_check now fs) ->
     other = now).
Proof.
  intros V. split; [reflexivity|]. split.
  - unfold isoformat. destruct (microsecond now =? 0)%N; reflexivity.
  - intros other fs' V' H. unfold Main.health_check in H. cbn [fst] in H.
    apply (f_equal (fun r => match r with
                             | Return (JSONResponse _ (JObj [_; (_, JStr s)])) => s
                             | _ => EmptyString
                             end)) in H.
    apply isoformat_inj; assumption.
Qed.

Lemma health_check_timestamp_witness :
  valid_datetime Demo.now = true /\
  Main.health_check Demo.now ∅
    = (Return (JSONResponse 200
                 (JObj [("status", JStr "healthy");
                        ("timestamp", JStr "2024-03-05T07:08:09.120000")])), ∅).
Proof.
  split; [reflexivity|].
  exact (proj1 (health_check_timestamp Demo.now ∅ eq_refl)).
Defined.

(** ** Creating the output directories *)

Lemma makedirs_spec (env : Env) (fs fs' : FS.t) (name : string) :
  makedirs env fs name = Return fs' ->
  fs' !! name = Some FS.Dir /\
  (forall p, p <> name -> fs' !! p = fs !! p) /\
  (forall p bs, fs !! p = Some (FS.File bs) -> fs' !! p = Some (FS.File bs)) /\
  makedirs env fs' name = Return fs'.
Proof.
  unfold makedirs.
  destruct (fs !! name) as [[bs|]|] eqn:Hl; try discriminate.
  - intros H. injection H as <-. rewrite Hl. repeat split; auto.
  - destruct (os_can_write env name); [|discriminate].
    intros H. injection H as <-. rewrite lookup_insert_eq.
    split; [reflexivity|]. split; [|split; [|reflexivity]].
    + intros p Hp. now apply lookup_insert_ne.
    + intros p bs Hp. rewrite lookup_insert_ne; [exact Hp|].
      intros <-. congruence.
Qed.

(** X19: importing either module creates its directories and nothing
    else: when it succeeds the directories exist, every file of the store
    is still there with its content, no other path has changed, and doing
    it again changes nothing; a file standing where a directory should be
    makes it fail, although existing directories are tolerated. *)
Theorem module_init_keeps_files (env : Env) (fs : FS.t) :
  (forall fs',
     Main.module_init env fs = Return fs' ->
     fs' !! "pdf_files" = Some FS.Dir /\
     fs' !! "templates" = Some FS.Dir /\
     (forall p bs, fs !! p = Some (FS.File bs) -> fs' !! p = Some (FS.File bs)) /\
     (forall p, p <> "pdf_files" -> p <> "templates" -> fs' !! p = fs !! p) /\
     Main.module_init env fs' = Return fs') /\
  (forall fs',
     Passport.module_init env fs = Return fs' ->
     fs' !! "pdf_output" = Some FS.Dir /\
     (forall p bs, fs !! p = Some (FS.File bs) -> fs' !! p = Some (FS.File bs)) /\
     (forall p, p <> "pdf_output" -> fs' !! p = fs !! p) /\
     Passport.module_init env fs' = Return fs') /\
  (forall bs,
     fs !! "pdf_files" = Some (FS.File bs) ->
     Main.module_init env fs = Raise (OSError "pdf_files")) /\
  (forall bs,
     fs !! "pdf_output" = Some (FS.File bs) ->
     Passport.module_init env fs = Raise (OSError "pdf_output")).
Proof.
  split; [|split; [|split]].
  - intros fs' H. unfold Main.module_init in H.
    destruct (makedirs env fs "pdf_files") as [e|fs1] eqn:H1; [discriminate|].
    cbn [rbind] in H.
    apply makedirs_spec in H1 as (A1 & A2 & A3 & A4).
    pose proof (makedirs_spec _ _ _ _ H) as (B1 & B2 & B3 & B4).
    split; [rewrite B2 by discriminate; exact A1|].
    split; [exact B1|]. split; [auto|]. split.
    + intros p Hp1 Hp2. rewrite B2 by exact Hp2. now apply A2.
    + unfold Main.module_init.
      assert (Hd : fs' !! "pdf_files" = Some FS.Dir)
        by (rewrite B2 by discriminate; exact A1).
      assert (Hm : makedirs env fs' "pdf_files" = Return fs')
        by (unfold makedirs; now rewrite Hd).
      rewrite Hm. cbn [rbind]. exact B4.
  - intros fs' H. unfold Passport.module_init in *.
    apply makedirs_spec in H as (A1 & A2 & A3 & A4). auto.
  - intros bs H. unfold Main.module_init, makedirs. now rewrite H.
  - intros bs H. unfold Passport.module_init, makedirs.
    change Passport.pdf_folder with "pdf_output". now rewrite H.
Qed.

Lemma module_init_keeps_files_witness :
  let fs : FS.t := {["pdf_files/a.pdf" := FS.File Demo.pdf_magic]} in
  exists fs',
    Main.module_init Demo.env fs = Return fs' /\
    fs' !! "pdf_files" = Some FS.Dir /\
    fs' !! "pdf_files/a.pdf" = Some (FS.File Demo.pdf_magic).
Proof.
  cbv zeta.
  assert (Ha : ({["pdf_files/a.pdf" := FS.File Demo.pdf_magic]} : FS.t)
                 !! "pdf_files/a.pdf" = Some (FS.File Demo.pdf_magic))
    by apply lookup_singleton_eq.
  assert (H1 : ({["pdf_files/a.pdf" := FS.File Demo.pdf_magic]} : FS.t)
                 !! "pdf_files" = None)
    by (apply lookup_singleton_ne; discriminate).
  assert (Hi : Main.module_init Demo.env
                 {["pdf_files/a.pdf" := FS.File Demo.pdf_magic]}
               = Return (<["templates" := FS.Dir]>
                           (<["pdf_files" := FS.Dir]>
                              {["pdf_files/a.pdf" := FS.File Demo.pdf_magic]}))).
  { unfold Main.module_init, makedirs. rewrite H1. cbn.
    rewrite lookup_insert_ne by discriminate.
    rewrite lookup_singleton_ne by discriminate. reflexivity. }
  eexists. split; [exact Hi|].
  destruct (proj1 (module_init_keeps_files Demo.env _) _ Hi)
    as (A & _ & B & _).
  split; [exact A|exact (B _ _ Ha)].
Defined.

(** ** The document of the template variant *)

Lemma concat_cons (x : string) (l : list string) :
  String.concat "" (x :: l) = x +:+ String.concat "" l.
Proof. destruct l; cbn; [now rewrite append_nil_r|reflexivity]. Qed.

Lemma concat_occurs_at (k : nat) (l : list string) (x : string) :
  nth_error l k = Some x -> occurs_in x (String.concat "" l).
Proof.
  revert l. induction k as [|k IH]; intros [|a l] H; try discriminate H.
  - injection H as ->. rewrite concat_cons.
    exists EmptyString, (String.concat "" l). reflexivity.
  - rewrite concat_cons. destruct (IH l H) as (before & after & ->).
    exists (a +:+ before), after. now rewrite append_assoc.
Qed.

Ltac index_of x l :=
  lazymatch l with
  | x :: _ => constr:(O)
  | _ :: ?r => let k := index_of x r in constr:(S k)
  end.

Ltac find_in_list :=
  lazymatch goal with
  | |- occurs_in ?x (String.concat _ ?l) =>
      let k := index_of x l in
      apply (concat_occurs_at k); reflexivity
  end.

(** X20: the document is the fixed page with the fields put in as they
    are, without escaping: the employee name, the designation, the
    nationality, the passport number, the issue location, the employee
    code and the signature occur in it verbatim, the four dates occur in
    the form [format_date] gives them, and the footer carries the current
    year. *)
Theorem generate_pdf_html_interpolates (env : Env) (now : datetime)
  (declaration : Main.PassportDeclaration) :
  Forall (fun text => occurs_in text (Main.generate_pdf_html env now declaration))
    [ Main.employeeName declaration;
      Main.format_date env (Main.date declaration);
      Main.designation declaration;
      Main.format_date env (Main.joiningDate declaration);
      Main.nationality declaration;
      Main.passportNumber declaration;
      Main.issueLocation declaration;
      Main.format_date env (Main.issueDate declaration);
      Main.format_date env (Main.expiryDate declaration);
      Main.employeeCode declaration;
      Main.signature declaration;
      dec (year now) ].
Proof.
  unfold Main.generate_pdf_html.
  repeat (constructor; [find_in_list|]).
  constructor.
Qed.
